(** * Span lifecycle and context propagation of [@kozy/tracing]

    A shallow embedding of the span utilities ([core/span-utils]), the
    Express middleware ([http/express]) and the Service Bus adapter
    ([service-bus]) of the package, with the properties its specification
    states about them.

    Asynchronous code is read sequentially: [await e] is the sequencing of
    [e], and an awaited promise settles by fulfilment, by rejection, or
    never.  Mutable JavaScript objects (spans, the response, the
    AsyncLocalStorage store) live in an explicit [World] that is threaded
    through every computation. *)

From Stdlib Require Import Ascii String.
From stdpp Require Import base option list gmap strings pretty.

Open Scope string_scope.
Open Scope list_scope.

(** ** JavaScript values that reach the tracing code *)

(** What a callback can [throw].  Only [JsError] satisfies
    [instanceof Error]; a plain object carrying a [message] property does
    not. *)
Inductive JsValue :=
| JsError (name message : string) (stack : option string)
| JsString (s : string)
| JsNumber (n : Z)
| JsObject (message : option string)
| JsUndefined.

Definition instanceofError (v : JsValue) : bool :=
  match v with JsError _ _ _ => true | _ => false end.

(** [error.message], read only under [instanceof Error]. *)
Definition errorMessage (v : JsValue) : string :=
  match v with JsError _ m _ => m | _ => "" end.

(** JavaScript truthiness of a [string | undefined]. *)
Definition truthy (o : option string) : bool :=
  match o with
  | Some s => bool_decide (s ≠ "")
  | None => false
  end.

(** [a || b] on a [string | undefined] left operand. *)
Definition orElse (o : option string) (d : string) : string :=
  match o with
  | Some s => if bool_decide (s ≠ "") then s else d
  | None => d
  end.

(** ** Spans, as [@opentelemetry/api] exposes them *)

Inductive SpanStatusCode := UNSET | OK | ERROR.
Inductive SpanKind := INTERNAL | SERVER | CLIENT | PRODUCER | CONSUMER.

Inductive AttributeValue :=
| AString (s : string)
| ANumber (n : Z)
| ABool (b : bool)
| AStrings (l : list string).

Record SpanStatus := mkStatus {
  code : SpanStatusCode;
  message : option string
}.

Inductive SpanEvent :=
| EventAdded (name : string) (attrs : option (gmap string AttributeValue))
| ExceptionRecorded (error : JsValue) (attrs : option (gmap string AttributeValue)).

(** Modelled from the spec: the [Span] object itself belongs to the
    OpenTelemetry SDK, which is not part of the package.  The record is the
    span of the specification's data model, observed through a recording
    exporter: attributes are last-write-wins, events accumulate in order, a
    status set later replaces a status set earlier, and [endCalls] counts
    the calls to [span.end()]. *)
Record Span := mkSpan {
  spanName : string;
  spanKind : option SpanKind;
  parentSpan : option nat;
  attributes : gmap string AttributeValue;
  events : list SpanEvent;
  status : SpanStatus;
  endCalls : nat
}.

Module SpanObject.

Definition setAttribute (key : string) (value : AttributeValue) (s : Span) : Span :=
  mkSpan (spanName s) (spanKind s) (parentSpan s)
         (<[key := value]> (attributes s)) (events s) (status s) (endCalls s).

(** Keys of [attrs] overwrite equal keys already on the span. *)
Definition setAttributes (attrs : gmap string AttributeValue) (s : Span) : Span :=
  mkSpan (spanName s) (spanKind s) (parentSpan s)
         (attrs ∪ attributes s) (events s) (status s) (endCalls s).

Definition addEvent (name : string) (attrs : option (gmap string AttributeValue))
    (s : Span) : Span :=
  mkSpan (spanName s) (spanKind s) (parentSpan s)
         (attributes s) (events s ++ [EventAdded name attrs]) (status s) (endCalls s).

Definition recordException (error : JsValue)
    (attrs : option (gmap string AttributeValue)) (s : Span) : Span :=
  mkSpan (spanName s) (spanKind s) (parentSpan s)
         (attributes s) (events s ++ [ExceptionRecorded error attrs]) (status s)
         (endCalls s).

Definition setStatus (st : SpanStatus) (s : Span) : Span :=
  mkSpan (spanName s) (spanKind s) (parentSpan s)
         (attributes s) (events s) st (endCalls s).

Definition end_ (s : Span) : Span :=
  mkSpan (spanName s) (spanKind s) (parentSpan s)
         (attributes s) (events s) (status s) (S (endCalls s)).

End SpanObject.

(** [if (cond) attrs[key] = value] on an attribute bag under construction. *)
Definition setIf (cond : bool) (key : string) (value : AttributeValue)
    (attrs : gmap string AttributeValue) : gmap string AttributeValue :=
  if cond then <[key := value]> attrs else attrs.

(** ** The trace context of [core/trace-context] *)

Module TraceContext.

Record t := mk {
  traceId : option string;
  spanId : option string;
  correlationId : option string;
  requestId : option string;
  eventId : option string;
  eventType : option string;
  userId : option string
}.

Definition empty : t := mk None None None None None None None.

End TraceContext.

(** ** The world: every mutable object the code touches *)

Record World := mkWorld {
  spans : list Span;            (* every span created so far; a handle is an index *)
  activeSpan : option nat;      (* [trace.getActiveSpan()] *)
  traceStore : TraceContext.t;    (* the AsyncLocalStorage store *)
  idsDrawn : nat                (* identifiers drawn from the generator so far *)
}.

Definition withSpans (f : list Span → list Span) (w : World) : World :=
  mkWorld (f (spans w)) (activeSpan w) (traceStore w) (idsDrawn w).
Definition withActiveSpan (a : option nat) (w : World) : World :=
  mkWorld (spans w) a (traceStore w) (idsDrawn w).
Definition withTraceStore (c : TraceContext.t) (w : World) : World :=
  mkWorld (spans w) (activeSpan w) c (idsDrawn w).
Definition withIdsDrawn (n : nat) (w : World) : World :=
  mkWorld (spans w) (activeSpan w) (traceStore w) n.

(** ** Computations: state, exceptions and promises that never settle *)

Inductive Outcome (A : Type) :=
| Returned (a : A)
| Thrown (e : JsValue)
| Pending.
Arguments Returned {A} a.
Arguments Thrown {A} e.
Arguments Pending {A}.

Definition M (A : Type) : Type := World → Outcome A * World.

#[global] Instance M_ret : MRet M := λ A a w, (Returned a, w).
#[global] Instance M_bind : MBind M := λ A B k m w,
  match m w with
  | (Returned a, w') => k a w'
  | (Thrown e, w') => (Thrown e, w')
  | (Pending, w') => (Pending, w')
  end.

Definition throw {A} (e : JsValue) : M A := λ w, (Thrown e, w).

(** A promise that is never fulfilled nor rejected. *)
Definition never {A} : M A := λ w, (Pending, w).

(** [try { body } catch (error) { handler } finally { finalizer }].  When
    [body] hangs on an [await] that never resumes, neither the handler nor
    the finalizer runs. *)
Definition tryCatchFinally {A} (body : M A) (handler : JsValue → M A)
    (finalizer : M unit) : M A := λ w,
  let finish (r : Outcome A * World) : Outcome A * World :=
    match r with
    | (Pending, w') => (Pending, w')
    | (o, w') =>
        match finalizer w' with
        | (Returned _, w'') => (o, w'')
        | (Thrown e, w'') => (Thrown e, w'')
        | (Pending, w'') => (Pending, w'')
        end
    end in
  match body w with
  | (Returned a, w') => finish (Returned a, w')
  | (Thrown e, w') => finish (handler e w')
  | (Pending, w') => (Pending, w')
  end.

(** A method call on the span behind handle [span]. *)
Definition onSpan (span : nat) (f : Span → Span) : M unit := λ w,
  (Returned tt, withSpans (alter f span) w).

(** ** core/span-utils *)

Module SpanUtils.

Definition getCurrentSpan : M (option nat) := λ w, (Returned (activeSpan w), w).

Definition addSpanAttribute (key : string) (value : AttributeValue) : M unit :=
  span ← getCurrentSpan;
  match span with
  | Some span => onSpan span (SpanObject.setAttribute key value)
  | None => mret tt
  end.

Definition addSpanAttributes (attributes : gmap string AttributeValue) : M unit :=
  span ← getCurrentSpan;
  match span with
  | Some span => onSpan span (SpanObject.setAttributes attributes)
  | None => mret tt
  end.

Definition addSpanEvent (name : string)
    (attributes : option (gmap string AttributeValue)) : M unit :=
  span ← getCurrentSpan;
  match span with
  | Some span => onSpan span (SpanObject.addEvent name attributes)
  | None => mret tt
  end.

Definition recordException (error : JsValue)
    (attributes : option (gmap string AttributeValue)) : M unit :=
  span ← getCurrentSpan;
  match span with
  | Some span => onSpan span (SpanObject.recordException error attributes)
  | None => mret tt
  end.

Definition setSpanStatus (status : SpanStatusCode) (message : option string) : M unit :=
  span ← getCurrentSpan;
  match span with
  | Some span => onSpan span (SpanObject.setStatus (mkStatus status message))
  | None => mret tt
  end.

Record SpanOptions := mkSpanOptions {
  kind : option SpanKind;
  attributes : option (gmap string AttributeValue)
}.

(** The span [tracer.startActiveSpan] creates: a child of the span that
    is active at the call, with the attributes of the options. *)
Definition newSpan (spanName : string) (options : SpanOptions) (w : World) : Span :=
  mkSpan spanName (kind options) (activeSpan w)
         (default ∅ (attributes options)) [] (mkStatus UNSET None) 0.

(** The world in which the callback of [startActiveSpan] starts: the new
    span is stored under the next free handle and is the active span. *)
Definition enterSpan (spanName : string) (options : SpanOptions) (w : World) : World :=
  withActiveSpan (Some (length (spans w)))
    (withSpans (λ l, l ++ [newSpan spanName options w]) w).

(** [tracer.startActiveSpan(name, options, fn)]: runs [fn] with the new
    span active; the caller's active span is back once the call returns. *)
Definition startActiveSpan {A} (spanName : string) (options : SpanOptions)
    (fn : nat → M A) : M A := λ w,
  let span := length (spans w) in
  match fn span (enterSpan spanName options w) with
  | (o, w') => (o, withActiveSpan (activeSpan w) w')
  end.

(** [{ kind: options?.kind, attributes: options?.attributes }] *)
Definition spanOptionsOf (options : option SpanOptions) : SpanOptions :=
  mkSpanOptions (options ≫= kind) (options ≫= attributes).

Definition withSpan {T} (spanName : string) (fn : nat → M T)
    (options : option SpanOptions) : M T :=
  startActiveSpan spanName (spanOptionsOf options)
    (λ span,
      tryCatchFinally
        (result ← fn span;
         onSpan span (SpanObject.setStatus (mkStatus OK None));;
         mret result)
        (λ error,
         onSpan span (SpanObject.setStatus
           (mkStatus ERROR
              (Some (if instanceofError error then errorMessage error
                     else "Unknown error"))));;
         onSpan span (SpanObject.recordException error None);;
         throw error)
        (onSpan span SpanObject.end_)).

(** The world in which [withSpan spanName fn options] calls [fn]. *)
Definition atCallback (spanName : string) (options : option SpanOptions) (w : World)
    : World :=
  enterSpan spanName (spanOptionsOf options) w.

End SpanUtils.


(** ** core/trace-context *)

Module TraceCtx.

(** The source of [core/trace-context] is not available.  Three of its
    functions are taken as they are called, without fixing what they
    compute: the stream of identifiers behind [generateCorrelationId]
    ([idSource n] is the [n]-th identifier it yields), the extractor the
    HTTP middleware applies to the request headers, and the read of the
    current context. *)
Class Api := mkApi {
  idSource : nat → string;
  extractCorrelationId : gmap string string → option string;
  getCurrentTraceContext : World → TraceContext.t
}.

(** Modelled from the spec: [generateCorrelationId] of the missing
    [core/trace-context] produces a new identifier on every call; here it
    draws the next identifier of [idSource]. *)
Definition generateCorrelationId `{!Api} : M string := λ w,
  (Returned (idSource (idsDrawn w)), withIdsDrawn (S (idsDrawn w)) w).

(** Modelled from the spec: the merge behind [setTraceContext] of the
    missing [core/trace-context]: a field that is given replaces the
    current one, a field the caller leaves undefined keeps its value. *)
Definition mergeTraceContext (partial current : TraceContext.t) : TraceContext.t :=
  TraceContext.mk
    (from_option Some (TraceContext.traceId current) (TraceContext.traceId partial))
    (from_option Some (TraceContext.spanId current) (TraceContext.spanId partial))
    (from_option Some (TraceContext.correlationId current)
       (TraceContext.correlationId partial))
    (from_option Some (TraceContext.requestId current) (TraceContext.requestId partial))
    (from_option Some (TraceContext.eventId current) (TraceContext.eventId partial))
    (from_option Some (TraceContext.eventType current) (TraceContext.eventType partial))
    (from_option Some (TraceContext.userId current) (TraceContext.userId partial)).

(** Modelled from the spec: [setTraceContext] of the missing
    [core/trace-context] merges the given fields into the context of the
    calling scope, without opening a new scope. *)
Definition setTraceContext (context : TraceContext.t) : M unit := λ w,
  (Returned tt, withTraceStore (mergeTraceContext context (traceStore w)) w).

(** Modelled from the spec: [runWithTraceContext] of the missing
    [core/trace-context] installs the context for the duration of [fn] and
    restores the one that was active before. *)
Definition runWithTraceContext {A} (context : TraceContext.t) (fn : M A) : M A := λ w,
  match fn (withTraceStore context w) with
  | (o, w') => (o, withTraceStore (traceStore w) w')
  end.

(** Modelled from the spec: [extractTraceFromServiceBusMessage] of the
    missing [core/trace-context] reads the application properties
    [correlationId], [traceId], [eventId], [eventType] and [userId]; a key
    that is absent stays unset. *)
Definition extractTraceFromServiceBusMessage (props : gmap string string)
    : TraceContext.t :=
  TraceContext.mk (props !! "traceId") None (props !! "correlationId") None
                 (props !! "eventId") (props !! "eventType") (props !! "userId").

(** [s.split(sep)] for a one-character separator. *)
Fixpoint splitOn (sep : ascii) (s : string) : list string :=
  match s with
  | EmptyString => [EmptyString]
  | String c rest =>
      if Ascii.eqb c sep then EmptyString :: splitOn sep rest
      else match splitOn sep rest with
           | field :: fields => String c field :: fields
           | [] => [String c EmptyString]
           end
  end.

Fixpoint allChars (p : ascii → bool) (s : string) : bool :=
  match s with
  | EmptyString => true
  | String c rest => p c && allChars p rest
  end.

Definition isHexDigit (c : ascii) : bool :=
  let n := nat_of_ascii c in
  ((48 <=? n) && (n <=? 57) || (97 <=? n) && (n <=? 102)
   || (65 <=? n) && (n <=? 70))%nat.

Definition isHex (len : nat) (s : string) : bool :=
  (String.length s =? len)%nat && allChars isHexDigit s.

Definition allZero (s : string) : bool := allChars (Ascii.eqb "0"%char) s.

(** Modelled from the spec: [extractTraceIdFromTraceparent] of the missing
    [core/trace-context], the specification's [parseTraceparent].  It
    accepts [{version}-{32 hex trace-id}-{16 hex parent-id}-{flags}] with a
    two-hex-digit version and flags, and yields nothing when the header is
    absent, malformed, or carries the all-zero trace id. *)
Definition extractTraceIdFromTraceparent (traceparent : option string) : option string :=
  match traceparent with
  | None => None
  | Some header =>
      match splitOn "-"%char header with
      | [version; traceId; parentId; flags] =>
          if isHex 2 version && isHex 32 traceId && isHex 16 parentId
             && isHex 2 flags && negb (allZero traceId)
          then Some traceId
          else None
      | _ => None
      end
  end.

End TraceCtx.

(** ** http/express *)

Module Express.

Record Request := mkRequest {
  headers : gmap string string;
  method : string;
  path : string;
  routePath : option string;      (* [req.route?.path] *)
  url : string;
  ip : option string
}.

(** The response as the middleware uses it: [headerWrites] lists the calls
    to [res.setHeader] in order, and a listener registered with
    [res.on('finish', ...)] receives [res.statusCode] as it is when the
    listener runs. *)
Record Response := mkResponse {
  statusCode : Z;
  headerWrites : list (string * string);
  finishListeners : list (Z → M unit)
}.

Definition setHeader (name value : string) (res : Response) : Response :=
  mkResponse (statusCode res) (headerWrites res ++ [(name, value)]) (finishListeners res).




Definition onFinish (listener : Z → M unit) (res : Response) : Response :=
  mkResponse (statusCode res) (headerWrites res) (finishListeners res ++ [listener]).

(** [res.status(code)] *)
Definition status (code : Z) (res : Response) : Response :=
  mkResponse code (headerWrites res) (finishListeners res).

(** The response emits ['finish']: every listener runs, in order of
    registration. *)
Definition emitFinish (res : Response) : M unit :=
  foldr (λ listener rest, listener (statusCode res);; rest) (mret tt)
        (finishListeners res).

Record TracingMiddlewareOptions := mkTracingMiddlewareOptions {
  correlationIdHeader : option string;
  generateCorrelationId : option bool;
  addCorrelationIdToResponse : option bool;
  addTraceIdToResponse : option bool;
  extractUserId : option (Request → option string);
  additionalAttributes : option (Request → gmap string AttributeValue)
}.

(** The listener the middleware registers for ['finish']. *)
Definition recordStatusCode (statusCode : Z) : M unit :=
  SpanUtils.addSpanAttributes {[ "http.response.status_code" := ANumber statusCode ]};;
  if bool_decide (500 ≤ statusCode)%Z then
    SpanUtils.setSpanStatus ERROR (Some ("HTTP " +:+ pretty statusCode))
  else if bool_decide (400 ≤ statusCode)%Z then
    SpanUtils.setSpanStatus OK None
  else
    SpanUtils.setSpanStatus OK None.

(** The handler [createTracingMiddleware(options)] returns, in direct
    style: it yields the response as it is when [next()] is called. *)
Definition createTracingMiddleware `{!TraceCtx.Api} (options : TracingMiddlewareOptions)
    (req : Request) (res : Response) : M Response :=
  let correlationIdHeader := default "x-correlation-id" (correlationIdHeader options) in
  let shouldGenerateCorrelationId := default true (generateCorrelationId options) in
  let addCorrelationIdToResponse := default true (addCorrelationIdToResponse options) in
  let addTraceIdToResponse := default true (addTraceIdToResponse options) in
  let extracted := TraceCtx.extractCorrelationId (headers req) in
  correlationId ←
    (if negb (truthy extracted) && shouldGenerateCorrelationId
     then generated ← TraceCtx.generateCorrelationId; mret (Some generated)
     else mret extracted);
  let traceId := TraceCtx.extractTraceIdFromTraceparent (headers req !! "traceparent") in
  let userId := extractUserId options ≫= (λ f, f req) in
  requestId ← TraceCtx.generateCorrelationId;
  TraceCtx.setTraceContext
    (TraceContext.mk traceId None correlationId (Some requestId) None None userId);;
  let res :=
    if truthy correlationId && addCorrelationIdToResponse
    then setHeader correlationIdHeader (default "" correlationId) res
    else res in
  let res := setHeader "x-request-id" requestId res in
  context ← (λ w, (Returned (TraceCtx.getCurrentTraceContext w), w));
  let res :=
    if truthy (TraceContext.traceId context) && addTraceIdToResponse
    then setHeader "x-trace-id" (default "" (TraceContext.traceId context)) res
    else res in
  let spanAttributes : gmap string AttributeValue :=
    {[ "http.request.method" := AString (method req);
       "http.request.path" := AString (path req);
       "http.request.route" := AString (orElse (routePath req) (path req));
       "http.request.query" :=
         AString (match TraceCtx.splitOn "?"%char (url req) with
                  | _ :: query :: _ => query
                  | _ => ""
                  end) ]} in
  let spanAttributes :=
    setIf (truthy correlationId) "correlation.id" (AString (default "" correlationId))
      spanAttributes in
  let spanAttributes :=
    setIf (truthy (Some requestId)) "request.id" (AString requestId) spanAttributes in
  let spanAttributes :=
    setIf (truthy userId) "user.id" (AString (default "" userId)) spanAttributes in
  let spanAttributes :=
    setIf (truthy (ip req)) "client.ip" (AString (default "" (ip req))) spanAttributes in
  let spanAttributes :=
    setIf (truthy (headers req !! "user-agent")) "user_agent.original"
      (AString (default "" (headers req !! "user-agent"))) spanAttributes in
  let spanAttributes :=
    match additionalAttributes options with
    | Some extra => extra req ∪ spanAttributes
    | None => spanAttributes
    end in
  SpanUtils.addSpanAttributes spanAttributes;;
  let res := onFinish recordStatusCode res in
  mret res.

End Express.

(** ** service-bus *)

Module ServiceBus.

(** The fields of [ServiceBusReceivedMessage] the adapter reads;
    [enqueuedTimeUtc] holds the date's [toISOString()]. *)
Record ServiceBusReceivedMessage := mkMessage {
  applicationProperties : option (gmap string string);
  messageId : option string;
  subject : option string;
  enqueuedTimeUtc : option string;
  deliveryCount : option Z;
  body : string
}.

Record MessageHandlerContext := mkHandlerContext {
  correlationId : option string;
  traceId : option string;
  eventId : option string;
  eventType : option string;
  userId : option string
}.

Definition MessageHandler (T : Type) : Type :=
  ServiceBusReceivedMessage → MessageHandlerContext → M T.

Record Options := mkOptions {
  spanName : option (string + (ServiceBusReceivedMessage → string));
  additionalAttributes :
    option (ServiceBusReceivedMessage → gmap string AttributeValue)
}.

(** The attributes the consumer span receives before the handler runs. *)
Definition consumerAttributes (options : option Options)
    (message : ServiceBusReceivedMessage) (traceContext : TraceContext.t)
    : gmap string AttributeValue :=
  let attributes : gmap string AttributeValue :=
    {[ "messaging.system" := AString "servicebus";
       "messaging.operation" := AString "receive";
       "messaging.message.id" := AString (orElse (messageId message) "unknown") ]} in
  let attributes :=
    setIf (truthy (subject message)) "messaging.destination"
      (AString (default "" (subject message))) attributes in
  let attributes :=
    setIf (truthy (TraceContext.correlationId traceContext)) "correlation.id"
      (AString (default "" (TraceContext.correlationId traceContext))) attributes in
  let attributes :=
    setIf (truthy (TraceContext.eventId traceContext)) "event.id"
      (AString (default "" (TraceContext.eventId traceContext))) attributes in
  let attributes :=
    setIf (truthy (TraceContext.eventType traceContext)) "event.type"
      (AString (default "" (TraceContext.eventType traceContext))) attributes in
  let attributes :=
    setIf (truthy (TraceContext.userId traceContext)) "user.id"
      (AString (default "" (TraceContext.userId traceContext))) attributes in
  let attributes :=
    match enqueuedTimeUtc message with
    | Some iso => <["messaging.message.enqueued_time" := AString iso]> attributes
    | None => attributes
    end in
  let attributes :=
    match deliveryCount message with
    | Some n => <["messaging.message.delivery_count" := ANumber n]> attributes
    | None => attributes
    end in
  match options ≫= additionalAttributes with
  | Some extra => extra message ∪ attributes
  | None => attributes
  end.

Definition withServiceBusTracing `{!TraceCtx.Api} {T} (handler : MessageHandler T)
    (options : option Options) (message : ServiceBusReceivedMessage) : M T :=
  let messageProps := default ∅ (applicationProperties message) in
  let extracted := TraceCtx.extractTraceFromServiceBusMessage messageProps in
  traceContext ←
    (if negb (truthy (TraceContext.correlationId extracted))
     then generated ← TraceCtx.generateCorrelationId;
          mret (TraceContext.mk
                  (TraceContext.traceId extracted) (TraceContext.spanId extracted)
                  (Some generated) (TraceContext.requestId extracted)
                  (TraceContext.eventId extracted) (TraceContext.eventType extracted)
                  (TraceContext.userId extracted))
     else mret extracted);
  let spanName :=
    match options ≫= spanName with
    | Some (inr f) => f message
    | Some (inl name) =>
        if bool_decide (name ≠ "") then name
        else "consume " +:+ orElse (TraceContext.eventType traceContext) "message"
    | None => "consume " +:+ orElse (TraceContext.eventType traceContext) "message"
    end in
  let handlerContext :=
    mkHandlerContext
      (TraceContext.correlationId traceContext) (TraceContext.traceId traceContext)
      (TraceContext.eventId traceContext) (TraceContext.eventType traceContext)
      (TraceContext.userId traceContext) in
  TraceCtx.runWithTraceContext traceContext
    (SpanUtils.withSpan spanName
       (λ span,
         onSpan span
           (SpanObject.setAttributes (consumerAttributes options message traceContext));;
         handler message handlerContext)
       (Some (SpanUtils.mkSpanOptions (Some CONSUMER) None))).

End ServiceBus.

(** ** Concrete callers, used to run the definitions *)

Module Sample.

Definition world0 : World := mkWorld [] None TraceContext.empty 0.

(** A world in which the HTTP auto-instrumentation has an active span. *)
Definition serverSpan : Span :=
  mkSpan "GET /api" (Some SERVER) None ∅ [] (mkStatus UNSET None) 0.
Definition worldServing : World := mkWorld [serverSpan] (Some 0%nat) TraceContext.empty 0.

(** Modelled from the spec: an instance of the missing
    [core/trace-context]: identifiers are drawn from a numbered sequence,
    the correlation id is read from the default header [x-correlation-id],
    and the current context is the stored one. *)
Definition api : TraceCtx.Api :=
  TraceCtx.mkApi (λ n, "id-" +:+ pretty n)
                 (λ headers, headers !! "x-correlation-id")
                 traceStore.

Definition dbDown : JsValue := JsError "Error" "db down" None.

(** [async (span) => { span.setStatus({code: ERROR, message: 'degraded'}); return 7 }] *)
Definition fnMarksErrorAndReturns (span : nat) : M Z :=
  onSpan span (SpanObject.setStatus (mkStatus ERROR (Some "degraded")));;
  mret 7%Z.

(** [async (span) => { span.setAttribute('k', 1); throw e }] *)
Definition fnThrows (e : JsValue) (span : nat) : M Z :=
  onSpan span (SpanObject.setAttribute "k" (ANumber 1));;
  throw e.

(** [async () => 7] *)
Definition fnReturns (span : nat) : M Z := mret 7%Z.

(** The span of [withSpan name fn options] in [world0] once [fnThrows]
    has run, and once [fnReturns] has run. *)
Definition spanAfterFnThrows (name : string) (kind : option SpanKind) : Span :=
  mkSpan name kind None {[ "k" := ANumber 1 ]} [] (mkStatus UNSET None) 0.
Definition spanAfterFnReturns (name : string) : Span :=
  mkSpan name None None ∅ [] (mkStatus UNSET None) 0.

(** [() => new Promise(() => {})]: work that was abandoned while suspended. *)
Definition fnNeverSettles (span : nat) : M Z := never.

Definition noOptions : Express.TracingMiddlewareOptions :=
  Express.mkTracingMiddlewareOptions None None None None None None.

(** Every switch of the middleware options turned off. *)
Definition allOff : Express.TracingMiddlewareOptions :=
  Express.mkTracingMiddlewareOptions None (Some false) (Some false) (Some false) None None.


Definition request (headers : gmap string string) : Express.Request :=
  Express.mkRequest headers "GET" "/api/users" None "/api/users?page=2" None.

Definition response : Express.Response := Express.mkResponse 200 [] [].

Definition message (props : gmap string string) : ServiceBus.ServiceBusReceivedMessage :=
  ServiceBus.mkMessage (Some props) (Some "m-1") None None (Some 1%Z) "".

(** [async () => { throw e }] *)
Definition handlerThrows (e : JsValue) : ServiceBus.MessageHandler unit :=
  λ _ _, throw e.

(** [async (message, context) => context.correlationId] *)
Definition handlerReadsCorrelationId : ServiceBus.MessageHandler (option string) :=
  λ _ context, mret (ServiceBus.correlationId context).

(** The response the middleware yields. *)
Definition responseOf (r : Outcome Express.Response * World) : Express.Response :=
  match fst r with
  | Returned res => res
  | _ => response
  end.

(** The header writes on the response the middleware yields. *)
Definition headerWritesOf (r : Outcome Express.Response * World) : list (string * string) :=
  match fst r with
  | Returned res => Express.headerWrites res
  | _ => []
  end.



End Sample.

(** * The rest of the package *)

(** ** Plain objects handed to loggers and to [res.json] *)

(** [JUndefined] is a property that is present with the value
    [undefined]; serialisation drops it. *)
#[warnings="-register-all"] Inductive Json :=
| JUndefined
| JBool (b : bool)
| JNumber (n : Z)
| JString (s : string)
| JArray (items : list Json)
| JObject (fields : list (string * Json)).

(** [...(value && { key: value })] for a [string | undefined] value. *)
Definition fieldIf (key : string) (value : option string) : list (string * Json) :=
  if truthy value then [(key, JString (default "" value))] else [].

(** [...context]: the fields of the current context that are set. *)
Definition contextFields (c : TraceContext.t) : list (string * Json) :=
  omap (λ kv : string * option string, (λ v, (kv.1, JString v)) <$> kv.2)
    [("traceId", TraceContext.traceId c); ("spanId", TraceContext.spanId c);
     ("correlationId", TraceContext.correlationId c);
     ("requestId", TraceContext.requestId c); ("eventId", TraceContext.eventId c);
     ("eventType", TraceContext.eventType c); ("userId", TraceContext.userId c)].

(** One call of [console.error(label, fields)]. *)
Definition ConsoleCall : Type := string * list (string * Json).

(** ** [String.prototype.trim] and [includes], on ASCII text *)

Definition isSpace (c : ascii) : bool :=
  let n := nat_of_ascii c in
  ((9 <=? n) && (n <=? 13) || (n =? 32))%nat.

Fixpoint trimStart (s : string) : string :=
  match s with
  | EmptyString => EmptyString
  | String c rest => if isSpace c then trimStart rest else s
  end.

Fixpoint trimEnd (s : string) : string :=
  match s with
  | EmptyString => EmptyString
  | String c rest =>
      match trimEnd rest with
      | EmptyString => if isSpace c then EmptyString else String c EmptyString
      | kept => String c kept
      end
  end.

Definition trim (s : string) : string := trimEnd (trimStart s).

Fixpoint startsWith (p s : string) : bool :=
  match p, s with
  | EmptyString, _ => true
  | String a p', String b s' => Ascii.eqb a b && startsWith p' s'
  | String _ _, EmptyString => false
  end.

(** [s.includes(p)] *)
Fixpoint includes (p s : string) : bool :=
  startsWith p s
  || match s with
     | EmptyString => false
     | String _ rest => includes p rest
     end.

(** [s.endsWith(p)] *)
Fixpoint endsWith (p s : string) : bool :=
  String.eqb p s
  || match s with
     | EmptyString => false
     | String _ rest => endsWith p rest
     end.

(** The world after a method call on the active span, if there is one. *)
Definition onActiveSpan (f : Span → Span) (w : World) : World :=
  match activeSpan w with
  | Some span => withSpans (alter f span) w
  | None => w
  end.

(** [s] does not contain the character [sep]. *)
Definition noChar (sep : ascii) (s : string) : Prop :=
  TraceCtx.allChars (λ c, negb (Ascii.eqb c sep)) s = true.

(** ** core/span-utils: [createSpan] *)

Module ManualSpan.

(** [context] is the span carried by the [Context] passed in the options. *)
Record Options := mkOptions {
  kind : option SpanKind;
  attributes : option (gmap string AttributeValue);
  context : option (option nat)
}.

(** [tracer.startSpan(name, { kind, attributes }, options?.context)]: the
    span is stored, its parent is the span of the given context or else
    the active span, and the active span stays what it was. *)
Definition createSpan (spanName : string) (options : option Options) : M nat := λ w,
  let parent :=
    match options ≫= context with
    | Some carried => carried
    | None => activeSpan w
    end in
  (Returned (length (spans w)),
   withSpans
     (λ l, l ++ [mkSpan spanName (options ≫= kind) parent
                        (default ∅ (options ≫= attributes)) []
                        (mkStatus UNSET None) 0])
     w).

End ManualSpan.

(** ** http/express: [createErrorMiddleware] *)

Module ExpressError.

(** The [Error] the middleware receives, with the optional [statusCode]
    it looks for. *)
Record HttpError := mkHttpError {
  name : string;
  message : string;
  stack : option string;
  statusCode : option Z
}.

Definition toJs (err : HttpError) : JsValue :=
  JsError (name err) (message err) (stack err).

(** [formatError] and [logger.error] are the caller's functions: each may
    do anything, and throw. *)
Record ErrorMiddlewareOptions := mkErrorMiddlewareOptions {
  logErrors : option bool;
  includeStack : option bool;
  formatError : option (HttpError → Express.Request → M Json);
  logger : option (string → list (string * Json) → M unit)
}.

(** What the middleware hands to Express and to the console: the response
    after [res.status(code)], the object given to [res.json], and the
    calls to [console.error]. *)
Record Sent := mkSent {
  response : Express.Response;
  body : Json;
  console : list ConsoleCall
}.

(** [err.stack] as it appears in a log record. *)
Definition stackField (err : HttpError) : Json :=
  match stack err with
  | Some s => JString s
  | None => JUndefined
  end.

(** [err.stack?.split('\n').map((line) => line.trim())] *)
Definition stackLines (err : HttpError) : Json :=
  match stack err with
  | Some s => JArray (JString ∘ trim <$> TraceCtx.splitOn "010"%char s)
  | None => JUndefined
  end.

(** [err.statusCode || 500] *)
Definition responseStatus (err : HttpError) : Z :=
  match statusCode err with
  | Some c => if bool_decide (c = 0%Z) then 500%Z else c
  | None => 500%Z
  end.

(** The fields of the record given to [logger.error] or [console.error];
    [first] is [error] for the logger and [message] for the console. *)
Definition logFields (first : string) (err : HttpError) (req : Express.Request)
    (context : TraceContext.t) : list (string * Json) :=
  [(first, JString (message err)); ("stack", stackField err);
   ("method", JString (Express.method req)); ("path", JString (Express.path req))]
  ++ contextFields context.

(** The object given to [res.json] when no [formatError] is configured. *)
Definition defaultErrorResponse (includeStack : bool) (err : HttpError)
    (context : TraceContext.t) : Json :=
  JObject
    [("error",
      JObject
        ([("message", JString (message err)); ("type", JString (name err))]
         ++ (if includeStack then [("stack", stackLines err)] else [])
         ++ fieldIf "correlationId" (TraceContext.correlationId context)
         ++ fieldIf "traceId" (TraceContext.traceId context)
         ++ fieldIf "requestId" (TraceContext.requestId context)))].

(** [includeStack = process.env.NODE_ENV !== 'production'] unless given. *)
Definition resolveIncludeStack (env : gmap string string)
    (options : ErrorMiddlewareOptions) : bool :=
  default (bool_decide (env !! "NODE_ENV" ≠ Some "production")) (includeStack options).

(** The handler [createErrorMiddleware(options)] returns; [env] is
    [process.env] when the middleware is created. *)
Definition createErrorMiddleware `{!TraceCtx.Api} (env : gmap string string)
    (options : ErrorMiddlewareOptions) (err : HttpError) (req : Express.Request)
    (res : Express.Response) : M Sent :=
  let logErrors := default true (logErrors options) in
  let includeStack := resolveIncludeStack env options in
  context ← (λ w, (Returned (TraceCtx.getCurrentTraceContext w), w));
  SpanUtils.recordException (toJs err)
    (Some {[ "http.request.method" := AString (Express.method req);
             "http.request.path" := AString (Express.path req) ]});;
  SpanUtils.setSpanStatus ERROR (Some (message err));;
  console ←
    (if logErrors then
       match logger options with
       | Some logError =>
           logError "Request error" (logFields "error" err req context);;
           mret []
       | None => mret [("[Tracing Error]", logFields "message" err req context)]
       end
     else mret []);
  let statusCode := responseStatus err in
  errorResponse ←
    match formatError options with
    | Some format => format err req
    | None => mret (defaultErrorResponse includeStack err context)
    end;
  mret (mkSent (Express.status statusCode res) errorResponse console).

End ExpressError.

(** ** service-bus: the producer and the error handler *)

Module ServiceBusProducer.

(** [injectTraceIntoServiceBusMessage] of the missing [core/trace-context],
    taken as it is called: it rewrites the property bag it is given, from
    what it reads in the world. *)
Class Injector := mkInjector {
  injectTraceIntoServiceBusMessage : gmap string string → World → gmap string string
}.

(** [withServiceBusProducerTracing(messageProperties, spanName)]; the
    result is the property bag as the call leaves it. *)
Definition withServiceBusProducerTracing `{!Injector}
    (messageProperties : gmap string string) (spanName : string)
    : M (gmap string string) :=
  SpanUtils.withSpan spanName
    (λ span,
      messageProperties ←
        (λ w, (Returned (injectTraceIntoServiceBusMessage messageProperties w), w));
      onSpan span
        (SpanObject.setAttributes
           {[ "messaging.system" := AString "servicebus";
              "messaging.operation" := AString "publish";
              "messaging.message.id" :=
                AString (orElse (messageProperties !! "eventId") "unknown");
              "event.type" :=
                AString (orElse (messageProperties !! "eventType") "unknown") ]});;
      (if truthy (messageProperties !! "correlationId")
       then onSpan span
              (SpanObject.setAttribute "correlation.id"
                 (AString (default "" (messageProperties !! "correlationId"))))
       else mret tt);;
      mret messageProperties)
    (Some (SpanUtils.mkSpanOptions (Some PRODUCER) None)).

Record ProcessErrorArgs := mkArgs {
  error : JsValue;
  errorSource : string;
  entityPath : string;
  fullyQualifiedNamespace : string
}.

(** The [message] property of a value that has properties: an [Error] and
    a plain object hold what they were given, a string or a number has no
    such property. *)
Definition messageOf (v : JsValue) : option string :=
  match v with
  | JsError _ m _ => Some m
  | JsObject m => m
  | JsString _ | JsNumber _ | JsUndefined => None
  end.

(** [v.message], read with no [instanceof] test: reading a property of
    [undefined] throws a [TypeError]. *)
Definition readMessage (v : JsValue) : M (option string) :=
  match v with
  | JsUndefined =>
      throw (JsError "TypeError"
               "Cannot read properties of undefined (reading 'message')" None)
  | _ => mret (messageOf v)
  end.

(** A [string | undefined] as a field of a logged object. *)
Definition jsonOfMessage (m : option string) : Json :=
  match m with
  | Some s => JString s
  | None => JUndefined
  end.

(** The handler [createServiceBusErrorHandler(onError)] returns; its result
    lists the calls to [console.error]. *)
Definition createServiceBusErrorHandler (onError : option (ProcessErrorArgs → M unit))
    (args : ProcessErrorArgs) : M (list ConsoleCall) :=
  SpanUtils.recordException (error args)
    (Some {[ "messaging.system" := AString "servicebus";
             "messaging.error.source" := AString (errorSource args);
             "messaging.destination" := AString (entityPath args);
             "messaging.url" := AString (fullyQualifiedNamespace args) ]});;
  message ← readMessage (error args);
  SpanUtils.setSpanStatus ERROR message;;
  match onError with
  | Some onError => onError args;; mret []
  | None =>
      message ← readMessage (error args);
      mret [("[Service Bus Error]",
             [("error", jsonOfMessage message);
              ("errorSource", JString (errorSource args));
              ("entityPath", JString (entityPath args));
              ("namespace", JString (fullyQualifiedNamespace args))])]
  end.

End ServiceBusProducer.

(** ** core/tracer *)

(** [a ?? b] *)
Definition nullish {A} (a b : option A) : option A :=
  match a with
  | Some _ => a
  | None => b
  end.

Module Tracer.

Inductive Protocol := Http | Grpc.

Definition protocolName (p : Protocol) : string :=
  match p with
  | Http => "http"
  | Grpc => "grpc"
  end.

Record InstrumentationConfig := mkInstrumentationConfig {
  ignoreHealthChecks : option bool;
  ignoreIncomingPaths : option (list string);
  enableFsInstrumentation : option bool
}.

Record TracingConfig := mkTracingConfig {
  serviceName : option string;
  serviceVersion : option string;
  environment : option string;
  serviceNamespace : option string;
  otlpEndpoint : option string;
  otlpProtocol : option Protocol;
  samplingRatio : option Qcanon.Qc;
  cloudRegion : option string;
  resourceAttributes : option (gmap string string);
  debug : option bool;
  disabled : option bool;
  instrumentationConfig : option InstrumentationConfig
}.

(** The port the fallback endpoints use: [protocol === 'http' ? 4318 : 4317]
    with [protocol = config.otlpProtocol ?? 'http']. *)
Definition defaultPort (config : TracingConfig) : string :=
  match default Http (otlpProtocol config) with
  | Http => "4318"
  | Grpc => "4317"
  end.

Definition resolveEndpoint (config : TracingConfig) (env : gmap string string) : string :=
  let otlpEndpoint :=
    nullish (otlpEndpoint config) (env !! "OTEL_EXPORTER_OTLP_TRACES_ENDPOINT") in
  let otlpEndpoint :=
    if negb (truthy otlpEndpoint) then env !! "OTEL_EXPORTER_OTLP_ENDPOINT"
    else otlpEndpoint in
  let otlpEndpoint :=
    if negb (truthy otlpEndpoint) && truthy (env !! "DD_AGENT_HOST")
    then Some ("http://" +:+ default "" (env !! "DD_AGENT_HOST") +:+ ":"
               +:+ defaultPort config)
    else otlpEndpoint in
  let otlpEndpoint :=
    if negb (truthy otlpEndpoint) then Some ("http://localhost:" +:+ defaultPort config)
    else otlpEndpoint in
  default "" otlpEndpoint.

(** [config.otlpProtocol ?? process.env.OTEL_EXPORTER_OTLP_PROTOCOL ?? 'http'] *)
Definition resolveProtocol (config : TracingConfig) (env : gmap string string) : string :=
  default "http"
    (nullish (protocolName <$> otlpProtocol config)
             (env !! "OTEL_EXPORTER_OTLP_PROTOCOL")).

Inductive Exporter :=
| OTLPGrpcTraceExporter (url : string)
| OTLPHttpTraceExporter (url : string).

Definition exporterUrl (e : Exporter) : string :=
  match e with
  | OTLPGrpcTraceExporter url => url
  | OTLPHttpTraceExporter url => url
  end.

Definition createExporter (otlpProtocol otlpEndpoint : string) : Exporter :=
  if bool_decide (otlpProtocol = "grpc") then OTLPGrpcTraceExporter otlpEndpoint
  else OTLPHttpTraceExporter
         (if endsWith "/v1/traces" otlpEndpoint then otlpEndpoint
          else otlpEndpoint +:+ "/v1/traces").

(** One entry of [OTEL_RESOURCE_ATTRIBUTES]:
    [const [key, value] = attr.split('='); if (key && value) ...]. *)
Definition addResourceEntry (attrs : gmap string string) (attr : string)
    : gmap string string :=
  match TraceCtx.splitOn "="%char attr with
  | key :: value :: _ =>
      if bool_decide (key ≠ "") && bool_decide (value ≠ "")
      then <[trim key := trim value]> attrs
      else attrs
  | _ => attrs
  end.

(** [if (process.env.A ?? process.env.B) attrs[key] = process.env.A ?? process.env.B] *)
Definition setFromEnv (key : string) (a b : option string) (attrs : gmap string string)
    : gmap string string :=
  if truthy (nullish a b) then <[key := default "" (nullish a b)]> attrs else attrs.

(** The resource attributes: the service identity, the cloud region, the
    Kubernetes tags, [OTEL_RESOURCE_ATTRIBUTES], then the attributes of the
    configuration, each written over what is there.  The keys are the
    constants of [@opentelemetry/semantic-conventions]. *)
Definition buildResourceAttributes (config : TracingConfig) (env : gmap string string)
    : gmap string string :=
  let serviceName :=
    default "unknown-service"
      (nullish (serviceName config)
         (nullish (env !! "OTEL_SERVICE_NAME")
            (nullish (env !! "DD_SERVICE") (env !! "SERVICE_NAME")))) in
  let serviceVersion :=
    default "1.0.0"
      (nullish (serviceVersion config)
         (nullish (env !! "OTEL_SERVICE_VERSION")
            (nullish (env !! "DD_VERSION") (env !! "SERVICE_VERSION")))) in
  let environment :=
    default "development"
      (nullish (environment config)
         (nullish (env !! "OTEL_DEPLOYMENT_ENVIRONMENT")
            (nullish (env !! "DD_ENV") (env !! "NODE_ENV")))) in
  let serviceNamespace := default "kozy" (serviceNamespace config) in
  let cloudRegion :=
    nullish (cloudRegion config)
      (nullish (env !! "CLOUD_REGION") (env !! "AZURE_REGION")) in
  let attrs : gmap string string :=
    {[ "service.name" := serviceName;
       "service.version" := serviceVersion;
       "deployment.environment" := environment;
       "service.namespace" := serviceNamespace;
       "cloud.provider" := "azure" ]} in
  let attrs :=
    if truthy cloudRegion then <["cloud.region" := default "" cloudRegion]> attrs
    else attrs in
  let attrs :=
    if truthy (env !! "KUBERNETES_SERVICE_HOST") then
      let attrs :=
        setFromEnv "k8s.namespace.name" (env !! "K8S_NAMESPACE_NAME")
          (env !! "NAMESPACE") attrs in
      let attrs :=
        setFromEnv "k8s.pod.name" (env !! "K8S_POD_NAME") (env !! "HOSTNAME") attrs in
      let attrs :=
        setFromEnv "k8s.node.name" (env !! "K8S_NODE_NAME") (env !! "NODE_NAME")
          attrs in
      setFromEnv "k8s.deployment.name" (env !! "K8S_DEPLOYMENT_NAME")
        (env !! "DEPLOYMENT_NAME") attrs
    else attrs in
  let attrs :=
    if truthy (env !! "OTEL_RESOURCE_ATTRIBUTES") then
      foldl addResourceEntry attrs
        (TraceCtx.splitOn ","%char (default "" (env !! "OTEL_RESOURCE_ATTRIBUTES")))
    else attrs in
  match resourceAttributes config with
  | Some extra => extra ∪ attrs
  | None => attrs
  end.

(** [ignoreIncomingRequestHook], with [url = request.url || '']. *)
Definition ignoreIncomingRequestHook (ignoreHealthChecks : bool)
    (ignoreIncomingPaths : list string) (url : string) : bool :=
  if ignoreHealthChecks
     && (includes "/health" url || includes "/ready" url || includes "/live" url)
  then true
  else existsb (λ path, includes path url) ignoreIncomingPaths.

(** What [new NodeSDK({ resource, traceExporter, instrumentations })]
    receives, as far as this module decides it. *)
Record SdkConfig := mkSdkConfig {
  resource : gmap string string;
  traceExporter : Exporter;
  fsInstrumentation : bool;
  ignoreHook : string → bool
}.

(** How the sampling ratio reaches the start-up message: the number of
    the configuration, or else the text [parseFloat] is applied to. *)
Inductive Sampling :=
| RatioGiven (q : Qcanon.Qc)
| RatioParsedFrom (text : string).

Inductive ConsoleLine :=
| LogDisabled
| WarnAlreadyInitialized
| LogInitializing (serviceName environment endpoint protocol : string)
    (sampling : Sampling)
| LogInitialized
| LogShuttingDown
| LogShutdownComplete
| ErrorDuringShutdown (error : JsValue).

(** The module variables [sdk] and [isInitialized], with what the module
    does to the process: SDKs started, signal handlers registered, the
    diagnostic logger, the console. *)
Record State := mkState {
  sdk : option SdkConfig;
  isInitialized : bool;
  sdkStarts : nat;
  signalHandlers : nat;
  diagDebug : bool;
  consoleLines : list ConsoleLine
}.

Definition initial : State := mkState None false 0 0 false [].

Definition say (line : ConsoleLine) (st : State) : State :=
  mkState (sdk st) (isInitialized st) (sdkStarts st) (signalHandlers st)
          (diagDebug st) (consoleLines st ++ [line]).

Definition initTracing (config : TracingConfig) (env : gmap string string)
    (st : State) : State :=
  let disabled :=
    default (bool_decide (env !! "OTEL_SDK_DISABLED" = Some "true")) (disabled config) in
  if disabled then say LogDisabled st
  else if isInitialized st then say WarnAlreadyInitialized st
  else
    let debugEnabled :=
      default (bool_decide (env !! "OTEL_LOG_LEVEL" = Some "debug")
               || bool_decide (env !! "OTEL_LOG_LEVEL" = Some "all"))
              (debug config) in
    let serviceName :=
      default "unknown-service"
        (nullish (serviceName config)
           (nullish (env !! "OTEL_SERVICE_NAME")
              (nullish (env !! "DD_SERVICE") (env !! "SERVICE_NAME")))) in
    let environment :=
      default "development"
        (nullish (environment config)
           (nullish (env !! "OTEL_DEPLOYMENT_ENVIRONMENT")
              (nullish (env !! "DD_ENV") (env !! "NODE_ENV")))) in
    let otlpEndpoint := resolveEndpoint config env in
    let otlpProtocol := resolveProtocol config env in
    let samplingRatio :=
      match samplingRatio config with
      | Some q => RatioGiven q
      | None => RatioParsedFrom (default "1.0" (env !! "OTEL_TRACES_SAMPLER_ARG"))
      end in
    let traceExporter := createExporter otlpProtocol otlpEndpoint in
    let resourceAttributes := buildResourceAttributes config env in
    let instrumentationConfig :=
      default (mkInstrumentationConfig None None None) (instrumentationConfig config) in
    let ignoreHealthChecks := default true (ignoreHealthChecks instrumentationConfig) in
    let ignoreIncomingPaths := default [] (ignoreIncomingPaths instrumentationConfig) in
    let enableFsInstrumentation :=
      default false (enableFsInstrumentation instrumentationConfig) in
    mkState
      (Some (mkSdkConfig resourceAttributes traceExporter enableFsInstrumentation
               (ignoreIncomingRequestHook ignoreHealthChecks ignoreIncomingPaths)))
      true
      (S (sdkStarts st))
      (2 + signalHandlers st)
      (debugEnabled || diagDebug st)
      (consoleLines st
       ++ [LogInitializing serviceName environment otlpEndpoint otlpProtocol
             samplingRatio;
           LogInitialized]).

(** [shutdownTracing()]; [rejection] is the error [sdk.shutdown()] rejects
    with, if it does. *)
Definition shutdownTracing (rejection : option JsValue) (st : State)
    : Outcome unit * State :=
  match sdk st with
  | Some _ =>
      if isInitialized st then
        match rejection with
        | None =>
            (Returned tt,
             mkState (sdk st) false (sdkStarts st) (signalHandlers st) (diagDebug st)
                     (consoleLines st ++ [LogShuttingDown; LogShutdownComplete]))
        | Some error =>
            (Thrown error,
             say (ErrorDuringShutdown error) (say LogShuttingDown st))
        end
      else (Returned tt, st)
  | None => (Returned tt, st)
  end.

(** A call of the module from outside. *)
Inductive Call :=
| CallInit (config : TracingConfig) (env : gmap string string)
| CallShutdown (rejection : option JsValue).

Definition step (st : State) (c : Call) : State :=
  match c with
  | CallInit config env => initTracing config env st
  | CallShutdown rejection => snd (shutdownTracing rejection st)
  end.

End Tracer.

(** ** logger: the mixin *)

Module Logger.

(** The [mixin] of the logger: the fields merged into every record. *)
Definition mixin `{!TraceCtx.Api} (w : World) : list (string * Json) :=
  let traceContext := TraceCtx.getCurrentTraceContext w in
  fieldIf "traceId" (TraceContext.traceId traceContext)
  ++ fieldIf "spanId" (TraceContext.spanId traceContext)
  ++ fieldIf "correlationId" (TraceContext.correlationId traceContext)
  ++ fieldIf "eventId" (TraceContext.eventId traceContext)
  ++ fieldIf "eventType" (TraceContext.eventType traceContext)
  ++ fieldIf "userId" (TraceContext.userId traceContext)
  ++ fieldIf "requestId" (TraceContext.requestId traceContext).

(** The field of the context that the mixin reports under [key]. *)
Definition fieldOf (key : string) (c : TraceContext.t) : option string :=
  if bool_decide (key = "traceId") then TraceContext.traceId c
  else if bool_decide (key = "spanId") then TraceContext.spanId c
  else if bool_decide (key = "correlationId") then TraceContext.correlationId c
  else if bool_decide (key = "eventId") then TraceContext.eventId c
  else if bool_decide (key = "eventType") then TraceContext.eventType c
  else if bool_decide (key = "userId") then TraceContext.userId c
  else if bool_decide (key = "requestId") then TraceContext.requestId c
  else None.

End Logger.

(** ** More concrete callers *)

Module Cases.

(** A world with two spans, the second one active. *)
Definition jobSpan : Span :=
  mkSpan "job" None (Some 0%nat) {[ "job.name" := AString "cleanup" ]} []
         (mkStatus UNSET None) 0.
Definition worldInJob : World :=
  mkWorld [Sample.serverSpan; jobSpan] (Some 1%nat) TraceContext.empty 0.

(** [withSpan('outer', () => withSpan('inner', fn))] *)
Definition nested {T} (fn : nat → M T) : M T :=
  SpanUtils.withSpan "outer" (λ _, SpanUtils.withSpan "inner" fn None) None.

Definition notFound : ExpressError.HttpError :=
  ExpressError.mkHttpError "NotFoundError" "no such user"
    (Some "NotFoundError: no such user
    at handler (app.ts:10:3)") (Some 404%Z).

Definition quiet : ExpressError.ErrorMiddlewareOptions :=
  ExpressError.mkErrorMiddlewareOptions (Some false) None None None.

Definition production : gmap string string := {[ "NODE_ENV" := "production" ]}.

(** [logger.error] of a logger whose transport is broken. *)
Definition brokenLogger : string → list (string * Json) → M unit :=
  λ _ _, throw (JsError "Error" "log transport down" None).

Definition withBrokenLogger : ExpressError.ErrorMiddlewareOptions :=
  ExpressError.mkErrorMiddlewareOptions None None None (Some brokenLogger).

(** The response as the tracing middleware leaves it for a new request. *)
Definition tracedResponse : Express.Response :=
  Express.mkResponse 200 [] [Express.recordStatusCode].

Definition userCreated : gmap string string :=
  {[ "correlationId" := "c-1"; "eventType" := "user.created" ]}.

(** An injector that writes the correlation id of the stored context. *)
Definition injector : ServiceBusProducer.Injector :=
  ServiceBusProducer.mkInjector
    (λ props w,
      match TraceContext.correlationId (traceStore w) with
      | Some id => <["correlationId" := id]> props
      | None => props
      end).

Definition processError : ServiceBusProducer.ProcessErrorArgs :=
  ServiceBusProducer.mkArgs (JsError "ServiceBusError" "lock lost" None)
    "processMessageCallback" "events/subscriptions/example" "ns.servicebus.windows.net".

(** [async () => { addSpanEvent('attempt'); throw e }]: a handler that
    leaves a mark on the active span every time it is called. *)
Definition handlerMarksAttempt (e : JsValue) : ServiceBus.MessageHandler unit :=
  λ _ _, SpanUtils.addSpanEvent "attempt" None;; throw e.

(** [() => { throw new Error('cannot format') }] as [formatError]. *)
Definition brokenFormat : ExpressError.HttpError → Express.Request → M Json :=
  λ _ _, throw (JsError "Error" "cannot format" None).

Definition withBrokenFormat : ExpressError.ErrorMiddlewareOptions :=
  ExpressError.mkErrorMiddlewareOptions (Some false) None (Some brokenFormat) None.

(** A rejection value that is a plain object with a [message]. *)
Definition processErrorPlainObject : ServiceBusProducer.ProcessErrorArgs :=
  ServiceBusProducer.mkArgs (JsObject (Some "lock lost"))
    "processMessageCallback" "events/subscriptions/example" "ns.servicebus.windows.net".

(** [async () => { throw new Error('alerting down') }] as [onError]. *)
Definition failingOnError : ServiceBusProducer.ProcessErrorArgs → M unit :=
  λ _, throw (JsError "Error" "alerting down" None).

(** A configuration that sets nothing. *)
Definition noConfig : Tracer.TracingConfig :=
  Tracer.mkTracingConfig None None None None None None None None None None None None.

Definition configWithEndpoint (endpoint : string) : Tracer.TracingConfig :=
  Tracer.mkTracingConfig None None None None (Some endpoint) None None None None None
    None None.

Definition disabledConfig : Tracer.TracingConfig :=
  Tracer.mkTracingConfig None None None None None None None None None None (Some true)
    None.

Definition grpcByEnvironment : gmap string string :=
  {[ "OTEL_EXPORTER_OTLP_PROTOCOL" := "grpc" ]}.

End Cases.

(** * Properties *)

(** ** How [withSpan] runs, by the way [fn] settles *)

Section WithSpan.
Context {T : Type}.
Implicit Types (spanName : string) (fn : nat → M T) (w : World).
Implicit Types (options : option SpanUtils.SpanOptions).

Lemma withSpan_returned spanName fn options w v w2 :
  fn (length (spans w)) (SpanUtils.atCallback spanName options w) = (Returned v, w2) →
  SpanUtils.withSpan spanName fn options w =
    (Returned v,
     withActiveSpan (activeSpan w)
       (withSpans (alter SpanObject.end_ (length (spans w)))
          (withSpans
             (alter (SpanObject.setStatus (mkStatus OK None)) (length (spans w))) w2))).
Proof.
  intros Hfn.
  unfold SpanUtils.withSpan, SpanUtils.startActiveSpan, tryCatchFinally.
  unfold SpanUtils.atCallback in Hfn.
  unfold mbind, M_bind. rewrite Hfn. reflexivity.
Qed.

Lemma withSpan_thrown spanName fn options w e w2 :
  fn (length (spans w)) (SpanUtils.atCallback spanName options w) = (Thrown e, w2) →
  SpanUtils.withSpan spanName fn options w =
    (Thrown e,
     withActiveSpan (activeSpan w)
       (withSpans (alter SpanObject.end_ (length (spans w)))
          (withSpans
             (alter (SpanObject.recordException e None) (length (spans w)))
             (withSpans
                (alter
                   (SpanObject.setStatus
                      (mkStatus ERROR
                         (Some (if instanceofError e then errorMessage e
                                else "Unknown error"))))
                   (length (spans w))) w2)))).
Proof.
  intros Hfn.
  unfold SpanUtils.withSpan, SpanUtils.startActiveSpan, tryCatchFinally.
  unfold SpanUtils.atCallback in Hfn.
  unfold mbind, M_bind. rewrite Hfn. reflexivity.
Qed.

Lemma withSpan_pending spanName fn options w w2 :
  fn (length (spans w)) (SpanUtils.atCallback spanName options w) = (Pending, w2) →
  SpanUtils.withSpan spanName fn options w = (Pending, withActiveSpan (activeSpan w) w2).
Proof.
  intros Hfn.
  unfold SpanUtils.withSpan, SpanUtils.startActiveSpan, tryCatchFinally.
  unfold SpanUtils.atCallback in Hfn.
  unfold mbind, M_bind. rewrite Hfn. reflexivity.
Qed.

End WithSpan.

(** The span [withSpan] creates is the one stored under the first free
    handle, and it is the active span when [fn] starts. *)
Lemma atCallback_span spanName options w :
  spans (SpanUtils.atCallback spanName options w) !! length (spans w) =
    Some (SpanUtils.newSpan spanName (SpanUtils.spanOptionsOf options) w)
  ∧ activeSpan (SpanUtils.atCallback spanName options w) = Some (length (spans w)).
Proof.
  split; [|reflexivity]. simpl.
  rewrite lookup_app_r by lia. by rewrite Nat.sub_diag.
Qed.

(** ** The span lifecycle wrapper *)

Local Ltac span_lookup H :=
  simpl; rewrite ?list_lookup_alter_eq, H; simpl.

(** C1 (as amended).  Whenever the promise of [fn] settles, by returning or
    by throwing, [withSpan] passes the outcome on and calls [span.end()] on
    the span it created exactly once, after [fn] has settled: the count
    of [end] calls is the count [fn] left plus one, hence one when [fn]
    did not end the span itself. *)
Theorem withSpan_ends_once_when_fn_settles {T} spanName (fn : nat → M T) options
    w o w2 s2 :
  fn (length (spans w)) (SpanUtils.atCallback spanName options w) = (o, w2) →
  o ≠ Pending →
  spans w2 !! length (spans w) = Some s2 →
  ∃ w3 s3,
    SpanUtils.withSpan spanName fn options w = (o, w3)
    ∧ spans w3 !! length (spans w) = Some s3
    ∧ endCalls s3 = S (endCalls s2)
    ∧ (endCalls s2 = 0%nat → endCalls s3 = 1%nat).
Proof.
  intros Hfn Hsettled Hs2. destruct o as [v|e|]; [| |done].
  - eexists _, _. split; [by apply withSpan_returned|].
    split; [by span_lookup Hs2|]. simpl. split; [done|]. by intros ->.
  - eexists _, _. split; [by apply withSpan_thrown|].
    split; [by span_lookup Hs2|]. simpl. split; [done|]. by intros ->.
Qed.

Lemma withSpan_ends_once_when_fn_settles_witness :
  ∃ w3 s3,
    SpanUtils.withSpan "job" (Sample.fnThrows Sample.dbDown) None Sample.world0
      = (Thrown Sample.dbDown, w3)
    ∧ spans w3 !! 0%nat = Some s3
    ∧ endCalls s3 = 1%nat
    ∧ (0%nat = 0%nat → endCalls s3 = 1%nat).
Proof.
  apply (withSpan_ends_once_when_fn_settles "job" (Sample.fnThrows Sample.dbDown)
           None Sample.world0 (Thrown Sample.dbDown)
           (snd (Sample.fnThrows Sample.dbDown 0%nat
                   (SpanUtils.atCallback "job" None Sample.world0)))
           (Sample.spanAfterFnThrows "job" None)).
  - reflexivity.
  - discriminate.
  - reflexivity.
Defined.

(** C1, as stated, fails: work that is abandoned while [fn] is suspended
    never resumes the [await], the [finally] block does not run, and the
    span is never ended. *)
Lemma withSpan_abandoned_fn_never_ends_span :
  let r := SpanUtils.withSpan "job" Sample.fnNeverSettles None Sample.world0 in
  fst r = Pending
  ∧ endCalls <$> spans (snd r) !! 0%nat = Some 0%nat
  ∧ endCalls <$> spans (snd r) !! 0%nat ≠ Some 1%nat.
Proof. done. Qed.

(** C2.  When [fn] throws an [Error] [e], [withSpan] rethrows that same
    [e]; the span carries status ERROR with [e.message], and [e] is the
    exception recorded last on it. *)
Theorem withSpan_rethrows_error {T} spanName (fn : nat → M T) options w
    name message stack w2 s2 :
  fn (length (spans w)) (SpanUtils.atCallback spanName options w)
    = (Thrown (JsError name message stack), w2) →
  spans w2 !! length (spans w) = Some s2 →
  ∃ w3 s3,
    SpanUtils.withSpan spanName fn options w = (Thrown (JsError name message stack), w3)
    ∧ spans w3 !! length (spans w) = Some s3
    ∧ status s3 = mkStatus ERROR (Some message)
    ∧ events s3 = events s2 ++ [ExceptionRecorded (JsError name message stack) None].
Proof.
  intros Hfn Hs2. eexists _, _. split; [by apply withSpan_thrown|].
  split; [by span_lookup Hs2|]. done.
Qed.

Lemma withSpan_rethrows_error_witness :
  ∃ w3 s3,
    SpanUtils.withSpan "consume user.created" (Sample.fnThrows Sample.dbDown)
      (Some (SpanUtils.mkSpanOptions (Some CONSUMER) None)) Sample.world0
      = (Thrown Sample.dbDown, w3)
    ∧ spans w3 !! 0%nat = Some s3
    ∧ status s3 = mkStatus ERROR (Some "db down")
    ∧ events s3 = [] ++ [ExceptionRecorded Sample.dbDown None].
Proof.
  apply (withSpan_rethrows_error "consume user.created"
           (Sample.fnThrows Sample.dbDown)
           (Some (SpanUtils.mkSpanOptions (Some CONSUMER) None)) Sample.world0
           "Error" "db down" None
           (snd (Sample.fnThrows Sample.dbDown 0%nat
                   (SpanUtils.atCallback "consume user.created"
                      (Some (SpanUtils.mkSpanOptions (Some CONSUMER) None))
                      Sample.world0)))
           (Sample.spanAfterFnThrows "consume user.created" (Some CONSUMER))).
  - reflexivity.
  - reflexivity.
Defined.

(** C3 (as amended).  When [fn] returns normally, [withSpan] returns its
    result and sets the status to OK after [fn] has returned, whatever
    status [fn] had set on the span. *)
Theorem withSpan_sets_ok_on_return {T} spanName (fn : nat → M T) options w v w2 s2 :
  fn (length (spans w)) (SpanUtils.atCallback spanName options w) = (Returned v, w2) →
  spans w2 !! length (spans w) = Some s2 →
  ∃ w3 s3,
    SpanUtils.withSpan spanName fn options w = (Returned v, w3)
    ∧ spans w3 !! length (spans w) = Some s3
    ∧ status s3 = mkStatus OK None.
Proof.
  intros Hfn Hs2. eexists _, _. split; [by apply withSpan_returned|].
  split; [by span_lookup Hs2|]. done.
Qed.

Lemma withSpan_sets_ok_on_return_witness :
  ∃ w3 s3,
    SpanUtils.withSpan "job" Sample.fnReturns None Sample.world0 = (Returned 7%Z, w3)
    ∧ spans w3 !! 0%nat = Some s3
    ∧ status s3 = mkStatus OK None.
Proof.
  apply (withSpan_sets_ok_on_return "job" Sample.fnReturns None Sample.world0 7%Z
           (SpanUtils.atCallback "job" None Sample.world0)
           (Sample.spanAfterFnReturns "job")).
  - reflexivity.
  - reflexivity.
Defined.

(** C3, as stated, fails: a callback that sets status ERROR on its span
    and then returns normally ends up with status OK; the status it set is
    not preserved. *)
Lemma withSpan_overwrites_status_set_by_fn :
  let before := snd (Sample.fnMarksErrorAndReturns 0%nat
                       (SpanUtils.atCallback "job" None Sample.world0)) in
  let r := SpanUtils.withSpan "job" Sample.fnMarksErrorAndReturns None Sample.world0 in
  status <$> spans before !! 0%nat = Some (mkStatus ERROR (Some "degraded"))
  ∧ fst r = Returned 7%Z
  ∧ status <$> spans (snd r) !! 0%nat = Some (mkStatus OK None)
  ∧ status <$> spans (snd r) !! 0%nat ≠ Some (mkStatus ERROR (Some "degraded")).
Proof. done. Qed.

(** C9.  When [fn] throws a value that is not an [Error] instance,
    [withSpan] rethrows that value; the span carries status ERROR with the
    fixed message ['Unknown error'], and the thrown value is the exception
    recorded last on it. *)
Theorem withSpan_rethrows_non_error {T} spanName (fn : nat → M T) options w e w2 s2 :
  fn (length (spans w)) (SpanUtils.atCallback spanName options w) = (Thrown e, w2) →
  instanceofError e = false →
  spans w2 !! length (spans w) = Some s2 →
  ∃ w3 s3,
    SpanUtils.withSpan spanName fn options w = (Thrown e, w3)
    ∧ spans w3 !! length (spans w) = Some s3
    ∧ status s3 = mkStatus ERROR (Some "Unknown error")
    ∧ events s3 = events s2 ++ [ExceptionRecorded e None].
Proof.
  intros Hfn Hinst Hs2. eexists _, _. split; [by apply withSpan_thrown|].
  split; [by span_lookup Hs2|]. simpl. by rewrite Hinst.
Qed.

Lemma withSpan_rethrows_non_error_witness :
  ∃ w3 s3,
    SpanUtils.withSpan "job" (Sample.fnThrows (JsObject (Some "quota exceeded")))
      None Sample.world0
      = (Thrown (JsObject (Some "quota exceeded")), w3)
    ∧ spans w3 !! 0%nat = Some s3
    ∧ status s3 = mkStatus ERROR (Some "Unknown error")
    ∧ events s3 = [] ++ [ExceptionRecorded (JsObject (Some "quota exceeded")) None].
Proof.
  apply (withSpan_rethrows_non_error "job"
           (Sample.fnThrows (JsObject (Some "quota exceeded"))) None Sample.world0
           (JsObject (Some "quota exceeded"))
           (snd (Sample.fnThrows (JsObject (Some "quota exceeded")) 0%nat
                   (SpanUtils.atCallback "job" None Sample.world0)))
           (Sample.spanAfterFnThrows "job" None)).
  - reflexivity.
  - reflexivity.
  - reflexivity.
Defined.

(** ** The helpers that act on the active span *)

(** C10.  With no active span, [addSpanAttribute], [addSpanAttributes],
    [addSpanEvent], [recordException] and [setSpanStatus] return normally
    and leave the world, hence every span, as it was. *)
Theorem span_helpers_without_active_span w :
  activeSpan w = None →
  (∀ key value, SpanUtils.addSpanAttribute key value w = (Returned tt, w))
  ∧ (∀ attrs, SpanUtils.addSpanAttributes attrs w = (Returned tt, w))
  ∧ (∀ name attrs, SpanUtils.addSpanEvent name attrs w = (Returned tt, w))
  ∧ (∀ error attrs, SpanUtils.recordException error attrs w = (Returned tt, w))
  ∧ (∀ code message, SpanUtils.setSpanStatus code message w = (Returned tt, w)).
Proof.
  intros Hnone.
  unfold SpanUtils.addSpanAttribute, SpanUtils.addSpanAttributes,
    SpanUtils.addSpanEvent, SpanUtils.recordException, SpanUtils.setSpanStatus,
    SpanUtils.getCurrentSpan, mbind, M_bind.
  rewrite Hnone. repeat split.
Qed.

Lemma span_helpers_without_active_span_witness :
  (∀ key value, SpanUtils.addSpanAttribute key value Sample.world0
                = (Returned tt, Sample.world0))
  ∧ (∀ attrs, SpanUtils.addSpanAttributes attrs Sample.world0
              = (Returned tt, Sample.world0))
  ∧ (∀ name attrs, SpanUtils.addSpanEvent name attrs Sample.world0
                   = (Returned tt, Sample.world0))
  ∧ (∀ error attrs, SpanUtils.recordException error attrs Sample.world0
                    = (Returned tt, Sample.world0))
  ∧ (∀ code message, SpanUtils.setSpanStatus code message Sample.world0
                     = (Returned tt, Sample.world0)).
Proof.
  apply (span_helpers_without_active_span Sample.world0). reflexivity.
Defined.

(** ** The HTTP middleware *)

Lemma addSpanAttributes_run attrs w :
  ∃ w', SpanUtils.addSpanAttributes attrs w = (Returned tt, w')
        ∧ traceStore w' = traceStore w ∧ idsDrawn w' = idsDrawn w.
Proof.
  unfold SpanUtils.addSpanAttributes, SpanUtils.getCurrentSpan, mbind, M_bind.
  destruct (activeSpan w); eexists; (split; [reflexivity|done]).
Qed.

(** One run of the middleware, spelled out: the correlation id it settles
    on, the request id it draws, the header writes it appends and the
    context it installs. *)
Lemma createTracingMiddleware_run `{!TraceCtx.Api} options req res w :
  let extracted := TraceCtx.extractCorrelationId (Express.headers req) in
  let generate :=
    negb (truthy extracted) && default true (Express.generateCorrelationId options) in
  let correlationId :=
    if generate then Some (TraceCtx.idSource (idsDrawn w)) else extracted in
  let requestIndex := if generate then S (idsDrawn w) else idsDrawn w in
  let requestId := TraceCtx.idSource requestIndex in
  ∃ w' traceWrite,
    Express.createTracingMiddleware options req res w =
      (Returned
         (Express.mkResponse (Express.statusCode res)
            (Express.headerWrites res
             ++ (if truthy correlationId
                    && default true (Express.addCorrelationIdToResponse options)
                 then [(default "x-correlation-id" (Express.correlationIdHeader options),
                        default "" correlationId)]
                 else [])
             ++ [("x-request-id", requestId)] ++ traceWrite)
            (Express.finishListeners res ++ [Express.recordStatusCode])),
       w')
    ∧ (traceWrite = []
       ∨ default true (Express.addTraceIdToResponse options) = true
         ∧ ∃ traceId, traceWrite = [("x-trace-id", traceId)])
    ∧ TraceContext.correlationId (traceStore w') =
        from_option Some (TraceContext.correlationId (traceStore w)) correlationId
    ∧ TraceContext.requestId (traceStore w') = Some requestId
    ∧ idsDrawn w' = S requestIndex.
Proof.
  intros extracted generate correlationId requestIndex requestId.
  unfold Express.createTracingMiddleware.
  fold extracted. fold generate.
  unfold mbind, M_bind, mret, M_ret, TraceCtx.generateCorrelationId,
    TraceCtx.setTraceContext.
  subst correlationId requestIndex requestId.
  destruct generate; cbn [idsDrawn withIdsDrawn withTraceStore traceStore];
    match goal with
    | |- context [SpanUtils.addSpanAttributes ?a ?w0] =>
        destruct (addSpanAttributes_run a w0) as (w' & Hrun & Hstore & Hids);
        rewrite Hrun; clear Hrun
    end;
    match goal with
    | |- context [truthy (TraceContext.traceId ?c) && ?b] =>
        destruct (truthy (TraceContext.traceId c)) eqn:Htid;
        destruct b eqn:Hb
    end;
    match goal with
    | |- context [if ?c then Express.setHeader _ _ res else res] => destruct c
    end;
    cbn [andb]; eexists w', _;
    (split; [unfold Express.onFinish, Express.setHeader; cbn;
             rewrite <- ?(assoc_L (++)); reflexivity |]);
    rewrite Hstore, Hids; cbn;
    (split; [first [by left | right; split; [done|by eexists]]|done]).
Qed.

Lemma recordStatusCode_run statusCode w span s :
  activeSpan w = Some span →
  spans w !! span = Some s →
  ∃ w' s',
    Express.recordStatusCode statusCode w = (Returned tt, w')
    ∧ spans w' !! span = Some s'
    ∧ attributes s' =
        {[ "http.response.status_code" := ANumber statusCode ]} ∪ attributes s
    ∧ status s' =
        (if bool_decide (500 ≤ statusCode)%Z
         then mkStatus ERROR (Some ("HTTP " +:+ pretty statusCode))
         else mkStatus OK None).
Proof.
  intros Hactive Hs.
  unfold Express.recordStatusCode, SpanUtils.addSpanAttributes,
    SpanUtils.setSpanStatus, SpanUtils.getCurrentSpan, onSpan, mbind, M_bind.
  rewrite Hactive.
  destruct (bool_decide (500 ≤ statusCode)%Z); [|destruct (bool_decide _)];
    cbn; rewrite Hactive; eexists _, _; (split; [reflexivity|]);
    cbn; rewrite !list_lookup_alter_eq, Hs; done.
Qed.

(** C5.  The middleware registers [recordStatusCode] for the ['finish']
    event of the response.  When it runs with a span active, the span
    receives the attribute [http.response.status_code] with the final
    status code, and its status is ERROR exactly when the code is at least
    500 and OK for every other code, 4xx codes included. *)
Theorem finish_records_status_code `{!TraceCtx.Api} options req res w :
  (∃ res' w',
     Express.createTracingMiddleware options req res w = (Returned res', w')
     ∧ Express.finishListeners res'
       = Express.finishListeners res ++ [Express.recordStatusCode])
  ∧ ∀ statusCode wf span s,
      activeSpan wf = Some span →
      spans wf !! span = Some s →
      ∃ wf' s',
        Express.recordStatusCode statusCode wf = (Returned tt, wf')
        ∧ spans wf' !! span = Some s'
        ∧ attributes s' !! "http.response.status_code" = Some (ANumber statusCode)
        ∧ (code (status s') = ERROR ↔ (500 ≤ statusCode)%Z)
        ∧ (code (status s') = OK ↔ (statusCode < 500)%Z).
Proof.
  split.
  - destruct (createTracingMiddleware_run options req res w) as (w' & tw & Hrun & _).
    eexists _, w'. split; [exact Hrun|done].
  - intros statusCode wf span s Hactive Hs.
    destruct (recordStatusCode_run statusCode wf span s Hactive Hs)
      as (wf' & s' & Hrun & Hs' & Hattrs & Hstatus).
    exists wf', s'. split; [done|]. split; [done|]. split.
    + rewrite Hattrs. apply lookup_union_Some_l. by rewrite lookup_singleton_eq.
    + rewrite Hstatus. case_bool_decide; simpl; split; split; (done || lia).
Qed.

Lemma finish_records_status_code_witness :
  ∃ wf' s',
    Express.recordStatusCode 404 Sample.worldServing = (Returned tt, wf')
    ∧ spans wf' !! 0%nat = Some s'
    ∧ attributes s' !! "http.response.status_code" = Some (ANumber 404)
    ∧ (code (status s') = ERROR ↔ (500 ≤ 404)%Z)
    ∧ (code (status s') = OK ↔ (404 < 500)%Z).
Proof.
  apply (proj2 (@finish_records_status_code Sample.api Sample.noOptions
                  (Sample.request ∅) Sample.response Sample.world0)
           404%Z Sample.worldServing 0%nat Sample.serverSpan).
  - reflexivity.
  - reflexivity.
Defined.





(** C7 (as amended).  The middleware appends at most three header writes,
    in this order: the correlation header, [x-request-id], [x-trace-id].
    The correlation header is not written when
    [addCorrelationIdToResponse] is false and [x-trace-id] is not written
    when [addTraceIdToResponse] is false; [x-request-id] is written under
    every configuration. *)
Theorem response_header_toggles `{!TraceCtx.Api} options req res w :
  ∃ res' w' correlationWrite requestId traceWrite,
    Express.createTracingMiddleware options req res w = (Returned res', w')
    ∧ Express.headerWrites res'
      = Express.headerWrites res ++ correlationWrite
        ++ [("x-request-id", requestId)] ++ traceWrite
    ∧ (∀ h, h ∈ correlationWrite →
            h.1 = default "x-correlation-id" (Express.correlationIdHeader options))
    ∧ (∀ h, h ∈ traceWrite → h.1 = "x-trace-id")
    ∧ (Express.addCorrelationIdToResponse options = Some false →
       correlationWrite = [])
    ∧ (Express.addTraceIdToResponse options = Some false → traceWrite = []).
Proof.
  destruct (createTracingMiddleware_run options req res w)
    as (w' & tw & Hrun & Htw & _).
  eexists _, w', _, _, tw. split; [exact Hrun|]. split; [reflexivity|].
  split; [|split; [|split]].
  - intros h. case_match; [|by intros ?%elem_of_nil].
    by intros ->%list_elem_of_singleton.
  - intros h Hh. destruct Htw as [->|(_ & tid & ->)]; [by apply elem_of_nil in Hh|].
    by apply list_elem_of_singleton in Hh as ->.
  - intros ->. cbn. by rewrite andb_false_r.
  - intros Hoff. destruct Htw as [->|(Hon & _)]; [done|].
    by rewrite Hoff in Hon.
Qed.

Lemma response_header_toggles_witness :
  ∃ res' w' correlationWrite requestId traceWrite,
    @Express.createTracingMiddleware Sample.api Sample.allOff
      (Sample.request {[ "x-correlation-id" := "c-1" ]})
      Sample.response Sample.world0 = (Returned res', w')
    ∧ Express.headerWrites res'
      = [] ++ correlationWrite ++ [("x-request-id", requestId)] ++ traceWrite
    ∧ (∀ h, h ∈ correlationWrite → h.1 = "x-correlation-id")
    ∧ (∀ h, h ∈ traceWrite → h.1 = "x-trace-id")
    ∧ (Some false = Some false → correlationWrite = [])
    ∧ (Some false = Some false → traceWrite = []).
Proof.
  destruct (@response_header_toggles Sample.api Sample.allOff
              (Sample.request {[ "x-correlation-id" := "c-1" ]})
              Sample.response Sample.world0)
    as (res' & w' & cw & rid & tw & Hrun & Hwrites & Hcname & Htname & Hcoff & Htoff).
  exists res', w', cw, rid, tw.
  split; [exact Hrun|]. split; [exact Hwrites|]. split; [exact Hcname|].
  split; [exact Htname|]. split.
  - intros _. apply Hcoff. reflexivity.
  - intros _. apply Htoff. reflexivity.
Defined.

(** C7, as stated, fails for [x-request-id]: no configuration keeps the
    middleware from writing it.  With every switch turned off the header is
    still written, and no value of the options makes it disappear. *)
Lemma x_request_id_has_no_toggle :
  Sample.headerWritesOf
    (@Express.createTracingMiddleware Sample.api Sample.allOff
       (Sample.request ∅) Sample.response Sample.world0)
  = [("x-request-id", "id-0")]
  ∧ ¬ ∃ options,
        ∀ value,
          ("x-request-id", value) ∉
            Sample.headerWritesOf
              (@Express.createTracingMiddleware Sample.api options
                 (Sample.request ∅) Sample.response Sample.world0).
Proof.
  split; [by vm_compute|].
  intros (options & Hnone).
  destruct (@createTracingMiddleware_run Sample.api options (Sample.request ∅)
              Sample.response Sample.world0) as (w' & tw & Hrun & _).
  unfold Sample.headerWritesOf in Hnone. rewrite Hrun in Hnone. cbn [fst] in Hnone.
  eapply Hnone. cbn [Express.headerWrites].
  rewrite !elem_of_app. right. right. left. apply list_elem_of_singleton. reflexivity.
Qed.

(** ** The Service Bus consumer *)

(** [withSpan] settles the way [fn] does. *)
Lemma withSpan_outcome {T} spanName (fn : nat → M T) options w :
  fst (SpanUtils.withSpan spanName fn options w)
  = fst (fn (length (spans w)) (SpanUtils.atCallback spanName options w)).
Proof.
  destruct (fn (length (spans w)) (SpanUtils.atCallback spanName options w))
    as [[v|e|] w2] eqn:Hfn.
  - by rewrite (withSpan_returned _ _ _ _ _ _ Hfn).
  - by rewrite (withSpan_thrown _ _ _ _ _ _ Hfn).
  - by rewrite (withSpan_pending _ _ _ _ _ Hfn).
Qed.

Lemma runWithTraceContext_outcome {A} context (fn : M A) w :
  fst (TraceCtx.runWithTraceContext context fn w) = fst (fn (withTraceStore context w)).
Proof.
  unfold TraceCtx.runWithTraceContext. by destruct (fn (withTraceStore context w)).
Qed.

Lemma orElse_nonempty s d : s ≠ "" → orElse (Some s) d = s.
Proof. intros Hs. unfold orElse. by rewrite bool_decide_eq_true_2. Qed.

(** C4 (as amended).  For a message whose application properties carry no
    [correlationId], and a generator that yields non-empty identifiers, the
    wrapped handler draws a new identifier and calls the user handler with
    it in the handler context and in the installed trace context.  The
    handler runs while a new span of kind CONSUMER, not yet ended, is
    active, and the wrapped handler settles as the user handler does.  The
    span is named [consume {eventType}] when no span name is configured
    and the properties carry a non-empty [eventType]; a non-empty
    configured name, or the result of a configured function, replaces
    that name. *)
Theorem consumer_handler_gets_generated_correlationId `{!TraceCtx.Api} {T}
    (handler : ServiceBus.MessageHandler T) options message w :
  default ∅ (ServiceBus.applicationProperties message) !! "correlationId" = None →
  (∀ n, TraceCtx.idSource n ≠ "") →
  ∃ id context wh s,
    id = TraceCtx.idSource (idsDrawn w) ∧ id ≠ ""
    ∧ idsDrawn wh = S (idsDrawn w)
    ∧ ServiceBus.correlationId context = Some id
    ∧ TraceContext.correlationId (traceStore wh) = Some id
    ∧ activeSpan wh = Some (length (spans w))
    ∧ spans wh !! length (spans w) = Some s
    ∧ spanKind s = Some CONSUMER
    ∧ endCalls s = 0%nat
    ∧ fst (ServiceBus.withServiceBusTracing handler options message w)
      = fst (handler message context wh)
    ∧ (options ≫= ServiceBus.spanName = None →
       ∀ eventType,
         default ∅ (ServiceBus.applicationProperties message) !! "eventType"
           = Some eventType →
         eventType ≠ "" →
         spanName s = "consume " +:+ eventType)
    ∧ (∀ name, options ≫= ServiceBus.spanName = Some (inl name) →
               name ≠ "" → spanName s = name)
    ∧ (∀ f, options ≫= ServiceBus.spanName = Some (inr f) →
            spanName s = f message).
Proof.
  intros Hnone Hnonempty.
  unfold ServiceBus.withServiceBusTracing.
  unfold TraceCtx.extractTraceFromServiceBusMessage at 1.
  cbn [TraceContext.correlationId]. rewrite Hnone. cbn [truthy negb].
  unfold mbind at 1, M_bind at 1, mbind at 1, M_bind at 1,
    TraceCtx.generateCorrelationId at 1.
  cbn [mret M_ret].
  rewrite runWithTraceContext_outcome, withSpan_outcome.
  unfold mbind at 1, M_bind at 1, onSpan at 1.
  eexists _, _, _, _. split; [reflexivity|]. split; [apply Hnonempty|].
  repeat apply conj.
  8: reflexivity.
  1-4: reflexivity.
  { cbn. rewrite list_lookup_alter_eq, lookup_app_r by lia.
    rewrite Nat.sub_diag. reflexivity. }
  1-2: reflexivity.
  all: cbn [spanName SpanObject.setAttributes SpanUtils.newSpan].
  - intros -> eventType HeventType Hne.
    cbn [TraceContext.eventType TraceCtx.extractTraceFromServiceBusMessage].
    rewrite HeventType. by rewrite orElse_nonempty.
  - intros name -> Hne. by rewrite bool_decide_eq_true_2.
  - by intros f ->.
Qed.

Lemma consumer_handler_gets_generated_correlationId_witness :
  ∃ context wh s,
    ServiceBus.correlationId context = Some "id-0"
    ∧ TraceContext.correlationId (traceStore wh) = Some "id-0"
    ∧ activeSpan wh = Some 0%nat
    ∧ spans wh !! 0%nat = Some s
    ∧ spanKind s = Some CONSUMER
    ∧ spanName s = "consume user.created"
    ∧ fst (@ServiceBus.withServiceBusTracing Sample.api _
             Sample.handlerReadsCorrelationId None
             (Sample.message {[ "eventType" := "user.created" ]}) Sample.world0)
      = fst (Sample.handlerReadsCorrelationId
               (Sample.message {[ "eventType" := "user.created" ]}) context wh).
Proof.
  destruct (@consumer_handler_gets_generated_correlationId Sample.api _
              Sample.handlerReadsCorrelationId None
              (Sample.message {[ "eventType" := "user.created" ]}) Sample.world0)
    as (id & context & wh & s & Hid & _ & _ & Hctx & Hstore & Hactive & Hs & Hkind
        & _ & Hrun & Hname & _).
  - reflexivity.
  - intros n. discriminate.
  - exists context, wh, s. subst id.
    split; [exact Hctx|]. split; [exact Hstore|]. split; [exact Hactive|].
    split; [exact Hs|]. split; [exact Hkind|]. split; [|exact Hrun].
    apply Hname; [reflexivity|reflexivity|discriminate].
Defined.

(** C4, as stated, fails on an empty [eventType]: the property is present,
    yet the span is named [consume message], not [consume ] followed by
    the event type. *)
Lemma consumer_span_name_for_empty_eventType :
  let message := Sample.message {[ "eventType" := "" ]} in
  let r := @ServiceBus.withServiceBusTracing Sample.api _
             Sample.handlerReadsCorrelationId None message Sample.world0 in
  default ∅ (ServiceBus.applicationProperties message) !! "correlationId" = None
  ∧ default ∅ (ServiceBus.applicationProperties message) !! "eventType" = Some ""
  ∧ spanName <$> spans (snd r) !! 0%nat = Some "consume message"
  ∧ spanName <$> spans (snd r) !! 0%nat ≠ Some ("consume " +:+ "").
Proof. by vm_compute. Qed.

(** ** The traceparent parser *)

Lemma splitOn_no_separator sep s :
  TraceCtx.allChars (λ c, negb (Ascii.eqb c sep)) s = true →
  TraceCtx.splitOn sep s = [s].
Proof.
  induction s as [|c s IH]; [done|]. cbn. intros [Hc Hs]%andb_true_iff.
  apply negb_true_iff in Hc. rewrite Hc, (IH Hs). done.
Qed.

Lemma splitOn_field sep field rest :
  TraceCtx.allChars (λ c, negb (Ascii.eqb c sep)) field = true →
  TraceCtx.splitOn sep (field +:+ String sep rest)
  = field :: TraceCtx.splitOn sep rest.
Proof.
  induction field as [|c field IH].
  - intros _. change ("" +:+ String sep rest) with (String sep rest).
    cbn. by rewrite Ascii.eqb_refl.
  - intros [Hc Hs]%andb_true_iff. apply negb_true_iff in Hc.
    change (String c field +:+ String sep rest)
      with (String c (field +:+ String sep rest)).
    cbn. rewrite Hc, (IH Hs). done.
Qed.

Lemma allChars_impl (p q : ascii → bool) s :
  (∀ c, p c = true → q c = true) →
  TraceCtx.allChars p s = true → TraceCtx.allChars q s = true.
Proof.
  intros Hpq. induction s as [|c s IH]; [done|]. cbn.
  intros [Hc Hs]%andb_true_iff. by rewrite (Hpq _ Hc), (IH Hs).
Qed.

Lemma isHexDigit_not_dash c :
  TraceCtx.isHexDigit c = true → negb (Ascii.eqb c "-") = true.
Proof.
  intros Hc. apply negb_true_iff, Ascii.eqb_neq. by intros ->.
Qed.

Lemma isHex_no_dash len s :
  TraceCtx.isHex len s = true →
  TraceCtx.allChars (λ c, negb (Ascii.eqb c "-")) s = true.
Proof.
  unfold TraceCtx.isHex. intros [_ Hs]%andb_true_iff.
  eapply allChars_impl; [apply isHexDigit_not_dash|done].
Qed.

(** C8.  [extractTraceIdFromTraceparent], the specification's
    [parseTraceparent], is a total function: it returns on every input.  On
    a header [{version}-{trace-id}-{parent-id}-{flags}] with a two-hex
    version, a 32-hex trace id that is not all zeros, a 16-hex parent id and
    two-hex flags it yields the trace id.  It yields nothing for an absent
    header, for a header that does not split into four fields, for a
    version that is not two hex digits and for the all-zero trace id; and
    whatever it yields is a 32-hex trace id that is not all zeros. *)
Theorem extractTraceIdFromTraceparent_spec :
  (∀ version traceId parentId flags,
     TraceCtx.isHex 2 version = true →
     TraceCtx.isHex 32 traceId = true →
     TraceCtx.isHex 16 parentId = true →
     TraceCtx.isHex 2 flags = true →
     TraceCtx.allZero traceId = false →
     TraceCtx.extractTraceIdFromTraceparent
       (Some (version +:+ "-" +:+ traceId +:+ "-" +:+ parentId +:+ "-" +:+ flags))
     = Some traceId)
  ∧ TraceCtx.extractTraceIdFromTraceparent None = None
  ∧ (∀ header,
       length (TraceCtx.splitOn "-" header) ≠ 4%nat →
       TraceCtx.extractTraceIdFromTraceparent (Some header) = None)
  ∧ (∀ header version fields,
       TraceCtx.splitOn "-" header = version :: fields →
       TraceCtx.isHex 2 version = false →
       TraceCtx.extractTraceIdFromTraceparent (Some header) = None)
  ∧ (∀ header version traceId fields,
       TraceCtx.splitOn "-" header = version :: traceId :: fields →
       TraceCtx.allZero traceId = true →
       TraceCtx.extractTraceIdFromTraceparent (Some header) = None)
  ∧ (∀ header,
       TraceCtx.extractTraceIdFromTraceparent header = None
       ∨ ∃ traceId,
           TraceCtx.extractTraceIdFromTraceparent header = Some traceId
           ∧ TraceCtx.isHex 32 traceId = true
           ∧ TraceCtx.allZero traceId = false).
Proof.
  repeat apply conj.
  - intros version traceId parentId flags Hv Ht Hp Hf Hnz.
    unfold TraceCtx.extractTraceIdFromTraceparent.
    repeat match goal with
           | |- context ["-" +:+ ?rest] =>
               change ("-" +:+ rest) with (String "-"%char rest)
           end.
    rewrite !(splitOn_field "-") by eauto using isHex_no_dash.
    rewrite splitOn_no_separator by eauto using isHex_no_dash.
    by rewrite Hv, Ht, Hp, Hf, Hnz.
  - done.
  - intros header Hlen. unfold TraceCtx.extractTraceIdFromTraceparent.
    destruct (TraceCtx.splitOn "-" header) as [|? [|? [|? [|? [|? ?]]]]]; done.
  - intros header version fields Hsplit Hv.
    unfold TraceCtx.extractTraceIdFromTraceparent. rewrite Hsplit.
    destruct fields as [|? [|? [|? [|? ?]]]]; try done. by rewrite Hv.
  - intros header version traceId fields Hsplit Hz.
    unfold TraceCtx.extractTraceIdFromTraceparent. rewrite Hsplit.
    destruct fields as [|? [|? [|? ?]]]; try done.
    by rewrite Hz, !andb_false_r.
  - intros [header|]; [|by left].
    unfold TraceCtx.extractTraceIdFromTraceparent.
    destruct (TraceCtx.splitOn "-" header) as [|v [|t [|p [|f [|? ?]]]]];
      try by left.
    destruct (TraceCtx.isHex 2 v && TraceCtx.isHex 32 t && TraceCtx.isHex 16 p
              && TraceCtx.isHex 2 f && negb (TraceCtx.allZero t)) eqn:Hok;
      [|by left].
    right. exists t. split; [done|].
    repeat (apply andb_true_iff in Hok as [Hok ?]).
    split; [done|]. by apply negb_true_iff.
Qed.

Lemma extractTraceIdFromTraceparent_spec_witness :
  TraceCtx.extractTraceIdFromTraceparent
    (Some "00-4bf92f3577b34da6a3ce929d0e0e4736-00f067aa0ba902b7-01")
  = Some "4bf92f3577b34da6a3ce929d0e0e4736"
  ∧ TraceCtx.extractTraceIdFromTraceparent (Some "00-4bf92f3577b34da6a3ce929d0e0e4736")
    = None
  ∧ TraceCtx.extractTraceIdFromTraceparent
      (Some "0x-4bf92f3577b34da6a3ce929d0e0e4736-00f067aa0ba902b7-01")
    = None
  ∧ TraceCtx.extractTraceIdFromTraceparent
      (Some "00-00000000000000000000000000000000-00f067aa0ba902b7-01")
    = None.
Proof.
  destruct extractTraceIdFromTraceparent_spec
    as (Hvalid & _ & Hcount & Hversion & Hzero & _).
  repeat apply conj.
  - apply (Hvalid "00" "4bf92f3577b34da6a3ce929d0e0e4736" "00f067aa0ba902b7" "01");
      reflexivity.
  - apply Hcount. vm_compute. discriminate.
  - apply (Hversion _ "0x" ["4bf92f3577b34da6a3ce929d0e0e4736"; "00f067aa0ba902b7"; "01"]);
      reflexivity.
  - apply (Hzero _ "00" "00000000000000000000000000000000" ["00f067aa0ba902b7"; "01"]);
      reflexivity.
Defined.

(** ** The end-to-end scenarios of the specification *)

(** An inbound message with [correlationId: "c-1"] and
    [eventType: "user.created"] whose handler throws [Error("db down")]:
    the error reaches the caller, and the span has kind CONSUMER, the name
    [consume user.created], status ERROR with the message [db down], the
    attribute [correlation.id = "c-1"], and was ended once. *)
Example scenario_consumer_handler_fails :
  let message :=
    Sample.message {[ "correlationId" := "c-1"; "eventType" := "user.created" ]} in
  let r := @ServiceBus.withServiceBusTracing Sample.api _
             (Sample.handlerThrows Sample.dbDown) None message Sample.world0 in
  fst r = Thrown Sample.dbDown
  ∧ (λ s, (spanKind s, spanName s, status s, endCalls s,
           attributes s !! "correlation.id")) <$> spans (snd r) !! 0%nat
    = Some (Some CONSUMER, "consume user.created",
            mkStatus ERROR (Some "db down"), 1%nat, Some (AString "c-1"))
  ∧ traceStore (snd r) = TraceContext.empty.
Proof. by vm_compute. Qed.

(** An inbound HTTP request without correlation header and with a valid
    [traceparent]: the response carries a generated correlation id, a
    generated request id and the trace id of the header; a final status of
    404 leaves the active span with status OK, a final status of 500 with
    status ERROR. *)
Example scenario_http_request :
  let req :=
    Sample.request
      {[ "traceparent" := "00-4bf92f3577b34da6a3ce929d0e0e4736-00f067aa0ba902b7-01" ]} in
  let r := @Express.createTracingMiddleware Sample.api Sample.noOptions req
             Sample.response Sample.worldServing in
  Sample.headerWritesOf r
  = [("x-correlation-id", "id-0"); ("x-request-id", "id-1");
     ("x-trace-id", "4bf92f3577b34da6a3ce929d0e0e4736")]
  ∧ status <$>
      spans (snd (Express.emitFinish (Express.status 404 (Sample.responseOf r))
                    (snd r))) !! 0%nat
    = Some (mkStatus OK None)
  ∧ status <$>
      spans (snd (Express.emitFinish (Express.status 500 (Sample.responseOf r))
                    (snd r))) !! 0%nat
    = Some (mkStatus ERROR (Some "HTTP 500")).
Proof. by vm_compute. Qed.

(** * Further properties *)

(** ** The span helpers, with a span active *)

Lemma length_atCallback spanName options w :
  length (spans (SpanUtils.atCallback spanName options w)) = S (length (spans w)).
Proof. cbn. rewrite length_app. cbn. lia. Qed.

(** X1.  With a span active, [addSpanAttribute key value] returns, the
    active span then holds [value] under [key], its other attributes, its
    status, its events and its count of [end] calls are as before, and no
    other span is touched. *)
Theorem addSpanAttribute_sets_key_on_active_span_only w span s key value :
  activeSpan w = Some span →
  spans w !! span = Some s →
  ∃ w' s',
    SpanUtils.addSpanAttribute key value w = (Returned tt, w')
    ∧ spans w' !! span = Some s'
    ∧ attributes s' !! key = Some value
    ∧ (∀ k, k ≠ key → attributes s' !! k = attributes s !! k)
    ∧ status s' = status s ∧ events s' = events s ∧ endCalls s' = endCalls s
    ∧ (∀ other, other ≠ span → spans w' !! other = spans w !! other)
    ∧ activeSpan w' = Some span.
Proof.
  intros Hactive Hs.
  unfold SpanUtils.addSpanAttribute, SpanUtils.getCurrentSpan, onSpan, mbind, M_bind.
  rewrite Hactive. eexists _, _. split; [reflexivity|]. cbn.
  rewrite list_lookup_alter_eq, Hs. split; [reflexivity|]. cbn.
  split; [by rewrite lookup_insert_eq|].
  split; [by intros k Hk; rewrite lookup_insert_ne|].
  repeat split; [|done].
  intros other Hother. by rewrite list_lookup_alter_ne.
Qed.

Lemma addSpanAttribute_sets_key_on_active_span_only_witness :
  ∃ w' s',
    SpanUtils.addSpanAttribute "job.name" (AString "reports") Cases.worldInJob
      = (Returned tt, w')
    ∧ spans w' !! 1%nat = Some s'
    ∧ attributes s' !! "job.name" = Some (AString "reports")
    ∧ spans w' !! 0%nat = Some Sample.serverSpan.
Proof.
  destruct (addSpanAttribute_sets_key_on_active_span_only Cases.worldInJob 1%nat
              Cases.jobSpan "job.name" (AString "reports"))
    as (w' & s' & Hrun & Hs' & Hkey & _ & _ & _ & _ & Hothers & _).
  - reflexivity.
  - reflexivity.
  - exists w', s'. split; [exact Hrun|]. split; [exact Hs'|]. split; [exact Hkey|].
    rewrite Hothers; [reflexivity|discriminate].
Defined.

(** X2.  With a span active, [addSpanAttributes attrs] merges: every key
    of [attrs] takes its new value, every other attribute of the active
    span keeps its value, and no other span is touched. *)
Theorem addSpanAttributes_merges_into_active_span w span s
    (attrs : gmap string AttributeValue) :
  activeSpan w = Some span →
  spans w !! span = Some s →
  ∃ w' s',
    SpanUtils.addSpanAttributes attrs w = (Returned tt, w')
    ∧ spans w' !! span = Some s'
    ∧ (∀ k v, attrs !! k = Some v → attributes s' !! k = Some v)
    ∧ (∀ k, attrs !! k = None → attributes s' !! k = attributes s !! k)
    ∧ (∀ other, other ≠ span → spans w' !! other = spans w !! other).
Proof.
  intros Hactive Hs.
  unfold SpanUtils.addSpanAttributes, SpanUtils.getCurrentSpan, onSpan, mbind, M_bind.
  rewrite Hactive. eexists _, _. split; [reflexivity|]. cbn.
  rewrite list_lookup_alter_eq, Hs. split; [reflexivity|]. cbn.
  split; [by intros k v Hk; apply lookup_union_Some_l|].
  split; [by intros k Hk; apply lookup_union_r|].
  intros other Hother. by rewrite list_lookup_alter_ne.
Qed.

Lemma addSpanAttributes_merges_into_active_span_witness :
  ∃ w' s',
    SpanUtils.addSpanAttributes {[ "user.id" := AString "u-1" ]} Cases.worldInJob
      = (Returned tt, w')
    ∧ spans w' !! 1%nat = Some s'
    ∧ attributes s' !! "user.id" = Some (AString "u-1")
    ∧ attributes s' !! "job.name" = Some (AString "cleanup").
Proof.
  destruct (addSpanAttributes_merges_into_active_span Cases.worldInJob 1%nat
              Cases.jobSpan {[ "user.id" := AString "u-1" ]})
    as (w' & s' & Hrun & Hs' & Hnew & Hold & _).
  - reflexivity.
  - reflexivity.
  - exists w', s'. split; [exact Hrun|]. split; [exact Hs'|]. split.
    + apply Hnew. reflexivity.
    + rewrite Hold; reflexivity.
Defined.

(** ** [createSpan] *)

(** X3.  [createSpan] stores a new span that is neither ended nor
    activated: the active span is unchanged, the stored spans are as
    before, and when the active handle is a stored span a helper called
    afterwards leaves the created span as it was created. *)
Theorem createSpan_is_detached spanName options w :
  (∀ active, activeSpan w = Some active → (active < length (spans w))%nat) →
  ∃ w' s,
    ManualSpan.createSpan spanName options w = (Returned (length (spans w)), w')
    ∧ spans w' !! length (spans w) = Some s
    ∧ endCalls s = 0%nat
    ∧ status s = mkStatus UNSET None
    ∧ activeSpan w' = activeSpan w
    ∧ (∀ j, (j < length (spans w))%nat → spans w' !! j = spans w !! j)
    ∧ (∀ key value,
         spans (snd (SpanUtils.addSpanAttribute key value w')) !! length (spans w)
         = Some s)
    ∧ (∀ code message,
         spans (snd (SpanUtils.setSpanStatus code message w')) !! length (spans w)
         = Some s).
Proof.
  intros Hvalid. unfold ManualSpan.createSpan. eexists _, _.
  split; [reflexivity|]. cbn.
  split; [by rewrite lookup_app_r, Nat.sub_diag by lia|].
  split; [done|]. split; [done|]. split; [done|].
  split; [by intros j Hj; rewrite lookup_app_l|].
  unfold SpanUtils.addSpanAttribute, SpanUtils.setSpanStatus,
    SpanUtils.getCurrentSpan, onSpan, mbind, M_bind. cbn.
  split; intros ? ?.
  - destruct (activeSpan w) as [active|] eqn:Hactive; cbn.
    + rewrite list_lookup_alter_ne by (specialize (Hvalid active eq_refl); lia).
      by rewrite lookup_app_r, Nat.sub_diag by lia.
    + by rewrite lookup_app_r, Nat.sub_diag by lia.
  - destruct (activeSpan w) as [active|] eqn:Hactive; cbn.
    + rewrite list_lookup_alter_ne by (specialize (Hvalid active eq_refl); lia).
      by rewrite lookup_app_r, Nat.sub_diag by lia.
    + by rewrite lookup_app_r, Nat.sub_diag by lia.
Qed.

Lemma createSpan_is_detached_witness :
  ∃ w' s,
    ManualSpan.createSpan "background-task"
      (Some (ManualSpan.mkOptions (Some INTERNAL) None None)) Cases.worldInJob
      = (Returned 2%nat, w')
    ∧ spans w' !! 2%nat = Some s
    ∧ endCalls s = 0%nat
    ∧ activeSpan w' = Some 1%nat
    ∧ spans (snd (SpanUtils.addSpanAttribute "task.id" (AString "t-1") w')) !! 2%nat
      = Some s.
Proof.
  destruct (createSpan_is_detached "background-task"
              (Some (ManualSpan.mkOptions (Some INTERNAL) None None))
              Cases.worldInJob)
    as (w' & s & Hrun & Hs & Hend & _ & Hactive & _ & Hattr & _).
  - intros active [= <-]. cbn. lia.
  - exists w', s. split; [exact Hrun|]. split; [exact Hs|]. split; [exact Hend|].
    split; [exact Hactive|]. apply Hattr.
Defined.

(** ** Nested [withSpan] calls *)

(** X4.  An error thrown inside a [withSpan] that is itself called from the
    callback of another [withSpan] is rethrown by both: the inner span is a
    child of the outer one, each of the two spans ends with status ERROR
    and the message of the error, records the error and is ended once more
    than [fn] left it, and the caller's active span is back. *)
Theorem nested_withSpan_records_error_on_both_spans {T} outerName innerName
    (fn : nat → M T) outerOptions innerOptions w name message stack w3 outer inner :
  let i := length (spans w) in
  let w2 := SpanUtils.atCallback innerName innerOptions
              (SpanUtils.atCallback outerName outerOptions w) in
  fn (S i) w2 = (Thrown (JsError name message stack), w3) →
  spans w3 !! i = Some outer →
  spans w3 !! S i = Some inner →
  (parentSpan <$> spans w2 !! S i) = Some (Some i)
  ∧ ∃ w4 outer' inner',
      SpanUtils.withSpan outerName
        (λ _, SpanUtils.withSpan innerName fn innerOptions) outerOptions w
      = (Thrown (JsError name message stack), w4)
      ∧ spans w4 !! i = Some outer'
      ∧ spans w4 !! S i = Some inner'
      ∧ status outer' = mkStatus ERROR (Some message)
      ∧ status inner' = mkStatus ERROR (Some message)
      ∧ events outer' = events outer ++ [ExceptionRecorded (JsError name message stack) None]
      ∧ events inner' = events inner ++ [ExceptionRecorded (JsError name message stack) None]
      ∧ endCalls outer' = S (endCalls outer)
      ∧ endCalls inner' = S (endCalls inner)
      ∧ activeSpan w4 = activeSpan w.
Proof.
  intros i w2 Hfn Houter Hinner.
  pose proof (length_atCallback outerName outerOptions w) as Hlen. fold i in Hlen.
  split.
  { subst w2. destruct (atCallback_span innerName innerOptions
                          (SpanUtils.atCallback outerName outerOptions w)) as [Hs _].
    rewrite Hlen in Hs. rewrite Hs. cbn. done. }
  pose proof (withSpan_thrown innerName fn innerOptions
                (SpanUtils.atCallback outerName outerOptions w)
                (JsError name message stack) w3) as Hinnerrun.
  rewrite Hlen in Hinnerrun. specialize (Hinnerrun Hfn).
  eexists _, _, _. split.
  { apply withSpan_thrown. exact Hinnerrun. }
  cbn [spans withSpans withActiveSpan activeSpan]. subst i.
  set (i := length (spans w)) in *.
  assert (i ≠ S i) by lia. assert (S i ≠ i) by lia.
  split.
  { rewrite !list_lookup_alter_eq, !list_lookup_alter_ne, Houter by done.
    reflexivity. }
  split.
  { rewrite !list_lookup_alter_ne, !list_lookup_alter_eq, Hinner by done.
    reflexivity. }
  done.
Qed.

Lemma nested_withSpan_records_error_on_both_spans_witness :
  ∃ w4 outer' inner',
    Cases.nested (Sample.fnThrows Sample.dbDown) Sample.world0
    = (Thrown Sample.dbDown, w4)
    ∧ spans w4 !! 0%nat = Some outer'
    ∧ spans w4 !! 1%nat = Some inner'
    ∧ status outer' = mkStatus ERROR (Some "db down")
    ∧ status inner' = mkStatus ERROR (Some "db down")
    ∧ endCalls outer' = 1%nat
    ∧ endCalls inner' = 1%nat.
Proof.
  destruct (nested_withSpan_records_error_on_both_spans "outer" "inner"
              (Sample.fnThrows Sample.dbDown) None None Sample.world0
              "Error" "db down" None
              (snd (Sample.fnThrows Sample.dbDown 1%nat
                      (SpanUtils.atCallback "inner" None
                         (SpanUtils.atCallback "outer" None Sample.world0))))
              (Sample.spanAfterFnReturns "outer")
              (mkSpan "inner" None (Some 0%nat) {[ "k" := ANumber 1 ]} []
                      (mkStatus UNSET None) 0))
    as (_ & w4 & outer' & inner' & Hrun & Ho & Hi & Hso & Hsi & _ & _ & Heo & Hei & _).
  - reflexivity.
  - reflexivity.
  - reflexivity.
  - exists w4, outer', inner'. split; [exact Hrun|]. split; [exact Ho|].
    split; [exact Hi|]. split; [exact Hso|]. split; [exact Hsi|].
    split; [exact Heo|]. exact Hei.
Defined.

(** ** The helpers as updates of the active span *)

Lemma recordException_run error attrs w :
  SpanUtils.recordException error attrs w
  = (Returned tt, onActiveSpan (SpanObject.recordException error attrs) w).
Proof.
  unfold SpanUtils.recordException, SpanUtils.getCurrentSpan, onActiveSpan, onSpan,
    mbind, M_bind.
  by destruct (activeSpan w).
Qed.

Lemma setSpanStatus_run code message w :
  SpanUtils.setSpanStatus code message w
  = (Returned tt, onActiveSpan (SpanObject.setStatus (mkStatus code message)) w).
Proof.
  unfold SpanUtils.setSpanStatus, SpanUtils.getCurrentSpan, onActiveSpan, onSpan,
    mbind, M_bind.
  by destruct (activeSpan w).
Qed.

Lemma addSpanAttributes_run' attrs w :
  SpanUtils.addSpanAttributes attrs w
  = (Returned tt, onActiveSpan (SpanObject.setAttributes attrs) w).
Proof.
  unfold SpanUtils.addSpanAttributes, SpanUtils.getCurrentSpan, onActiveSpan, onSpan,
    mbind, M_bind.
  by destruct (activeSpan w).
Qed.

Lemma onActiveSpan_lookup f w span :
  activeSpan w = Some span →
  spans (onActiveSpan f w) !! span = f <$> spans w !! span.
Proof.
  intros Hactive. unfold onActiveSpan. rewrite Hactive. cbn.
  apply list_lookup_alter_eq.
Qed.

Lemma onActiveSpan_active f w : activeSpan (onActiveSpan f w) = activeSpan w.
Proof. unfold onActiveSpan. by destruct (activeSpan w) eqn:Hactive. Qed.

Lemma onActiveSpan_none f w : activeSpan w = None → onActiveSpan f w = w.
Proof. unfold onActiveSpan. by intros ->. Qed.

(** ** The error middleware *)

(** The world the error middleware leaves: the error recorded on the
    active span, then status ERROR with its message. *)
Lemma createErrorMiddleware_quiet `{!TraceCtx.Api} env options err req res w :
  ExpressError.logger options = None ∨ ExpressError.logErrors options = Some false →
  ExpressError.createErrorMiddleware env options err req res w
  = (errorResponse ←
       match ExpressError.formatError options with
       | Some format => format err req
       | None =>
           mret (ExpressError.defaultErrorResponse
                   (ExpressError.resolveIncludeStack env options) err
                   (TraceCtx.getCurrentTraceContext w))
       end;
     mret (ExpressError.mkSent
             (Express.status (ExpressError.responseStatus err) res)
             errorResponse
             (if default true (ExpressError.logErrors options)
              then [("[Tracing Error]",
                     ExpressError.logFields "message" err req
                       (TraceCtx.getCurrentTraceContext w))]
              else [])))
      (onActiveSpan
         (SpanObject.setStatus (mkStatus ERROR (Some (ExpressError.message err))))
         (onActiveSpan
            (SpanObject.recordException (ExpressError.toJs err)
               (Some {[ "http.request.method" := AString (Express.method req);
                        "http.request.path" := AString (Express.path req) ]}))
            w)).
Proof.
  intros Hquiet. unfold ExpressError.createErrorMiddleware.
  unfold mbind at 1, M_bind at 1. cbn beta iota.
  unfold mbind at 1, M_bind at 1. rewrite recordException_run.
  unfold mbind at 1, M_bind at 1. rewrite setSpanStatus_run.
  unfold mbind at 1, M_bind at 1.
  destruct Hquiet as [Hquiet | Hquiet]; rewrite Hquiet;
    [destruct (default true _)|]; reflexivity.
Qed.

(** X5.  When no custom logger is called, the error middleware answers
    unless [formatError] throws.  With no [formatError], or one that
    returns, the response status is [err.statusCode] when that is a
    non-zero number and 500 otherwise, so never 0, and header writes and
    ['finish'] listeners of the response are left alone.  When
    [formatError] throws, the middleware throws the same value and sends
    nothing. *)
Theorem error_middleware_status_code `{!TraceCtx.Api} env options err req res w :
  ExpressError.logger options = None ∨ ExpressError.logErrors options = Some false →
  (ExpressError.formatError options = None
   ∨ (∃ format, ExpressError.formatError options = Some format
                ∧ ∀ w1, ∃ body w2, format err req w1 = (Returned body, w2)) →
   ∃ sent w',
     ExpressError.createErrorMiddleware env options err req res w = (Returned sent, w')
     ∧ Express.statusCode (ExpressError.response sent) ≠ 0%Z
     ∧ (∀ c, ExpressError.statusCode err = Some c → c ≠ 0%Z →
             Express.statusCode (ExpressError.response sent) = c)
     ∧ (ExpressError.statusCode err = None ∨ ExpressError.statusCode err = Some 0%Z →
        Express.statusCode (ExpressError.response sent) = 500%Z)
     ∧ Express.headerWrites (ExpressError.response sent) = Express.headerWrites res
     ∧ Express.finishListeners (ExpressError.response sent)
       = Express.finishListeners res)
  ∧ (∀ format thrown,
       ExpressError.formatError options = Some format →
       (∀ w1, ∃ w2, format err req w1 = (Thrown thrown, w2)) →
       ∃ w', ExpressError.createErrorMiddleware env options err req res w
             = (Thrown thrown, w')).
Proof.
  intros Hquiet. rewrite createErrorMiddleware_quiet by done.
  set (w1 := onActiveSpan _ (onActiveSpan _ w)). split.
  - intros Hformat.
    assert (∃ body w2,
      match ExpressError.formatError options with
      | Some format => format err req
      | None =>
          mret (ExpressError.defaultErrorResponse
                  (ExpressError.resolveIncludeStack env options) err
                  (TraceCtx.getCurrentTraceContext w))
      end w1 = (Returned body, w2)) as (body & w2 & Hbody).
    { destruct Hformat as [-> | (format & -> & Hreturns)]; [by eexists _, _|].
      apply Hreturns. }
    unfold mbind, M_bind. rewrite Hbody. eexists _, _. split; [reflexivity|].
    cbn. unfold ExpressError.responseStatus.
    split; [|split; [|split; [|done]]].
    + destruct (ExpressError.statusCode err) as [c|]; [|done].
      by case_bool_decide.
    + intros c -> Hc. by rewrite bool_decide_eq_false_2.
    + by intros [-> | ->].
  - intros format thrown -> Hthrows.
    destruct (Hthrows w1) as (w2 & Hbody).
    unfold mbind, M_bind. rewrite Hbody. by exists w2.
Qed.

Lemma error_middleware_status_code_witness :
  (∃ sent w',
     @ExpressError.createErrorMiddleware Sample.api ∅ Cases.quiet Cases.notFound
       (Sample.request ∅) Sample.response Sample.world0 = (Returned sent, w')
     ∧ Express.statusCode (ExpressError.response sent) = 404%Z)
  ∧ ∃ w',
      @ExpressError.createErrorMiddleware Sample.api ∅ Cases.withBrokenFormat
        Cases.notFound (Sample.request ∅) Sample.response Sample.world0
      = (Thrown (JsError "Error" "cannot format" None), w').
Proof.
  split.
  - destruct (@error_middleware_status_code Sample.api ∅ Cases.quiet Cases.notFound
                (Sample.request ∅) Sample.response Sample.world0)
      as [Hanswers _]; [right; reflexivity|].
    destruct Hanswers as (sent & w' & Hrun & _ & Hcode & _); [left; reflexivity|].
    exists sent, w'. split; [exact Hrun|]. apply Hcode; [reflexivity|discriminate].
  - destruct (@error_middleware_status_code Sample.api ∅ Cases.withBrokenFormat
                Cases.notFound (Sample.request ∅) Sample.response Sample.world0)
      as [_ Hthrows]; [right; reflexivity|].
    apply (Hthrows Cases.brokenFormat); [reflexivity|].
    intros w1. by exists w1.
Defined.

Lemma elem_of_fieldIf key value k (j : Json) :
  (k, j) ∈ fieldIf key value
  ↔ k = key ∧ ∃ id, j = JString id ∧ value = Some id ∧ id ≠ "".
Proof.
  unfold fieldIf, truthy. destruct value as [id|]; cbn.
  - case_bool_decide as Hid.
    + rewrite list_elem_of_singleton. split.
      * intros [= -> ->]. eauto.
      * intros (-> & ? & -> & [= <-] & _). done.
    + rewrite elem_of_nil. split; [done|].
      intros (_ & ? & _ & [= <-] & Hne). by destruct Hid.
  - rewrite elem_of_nil. split; [done|]. by intros (_ & ? & _ & ? & _).
Qed.

Lemma resolveIncludeStack_true env options :
  ExpressError.resolveIncludeStack env options = true
  ↔ ExpressError.includeStack options = Some true
    ∨ ExpressError.includeStack options = None ∧ env !! "NODE_ENV" ≠ Some "production".
Proof.
  unfold ExpressError.resolveIncludeStack.
  destruct (ExpressError.includeStack options) as [[]|]; cbn.
  - split; [by left|done].
  - split; [done|]. by intros [[=] | [[=] _]].
  - rewrite bool_decide_eq_true. split; [by right|]. by intros [[=] | [_ ?]].
Qed.

(** X6.  When no custom logger is called and no [formatError] is given,
    the body is [{ error: { ... } }] with the message and the name of the
    error; it carries [correlationId], [traceId] and [requestId] exactly
    when the current context holds a non-empty one, with that value; and it
    carries a [stack] property exactly when [includeStack] is true, or is
    unset outside of [NODE_ENV=production]. *)
Theorem error_middleware_default_body `{!TraceCtx.Api} env options err req res w :
  ExpressError.logger options = None ∨ ExpressError.logErrors options = Some false →
  ExpressError.formatError options = None →
  ∃ sent w' fields,
    ExpressError.createErrorMiddleware env options err req res w = (Returned sent, w')
    ∧ ExpressError.body sent = JObject [("error", JObject fields)]
    ∧ ("message", JString (ExpressError.message err)) ∈ fields
    ∧ ("type", JString (ExpressError.name err)) ∈ fields
    ∧ (∀ j, ("correlationId", j) ∈ fields
            ↔ ∃ id, j = JString id ∧ id ≠ ""
                    ∧ TraceContext.correlationId (TraceCtx.getCurrentTraceContext w)
                      = Some id)
    ∧ (∀ j, ("traceId", j) ∈ fields
            ↔ ∃ id, j = JString id ∧ id ≠ ""
                    ∧ TraceContext.traceId (TraceCtx.getCurrentTraceContext w) = Some id)
    ∧ (∀ j, ("requestId", j) ∈ fields
            ↔ ∃ id, j = JString id ∧ id ≠ ""
                    ∧ TraceContext.requestId (TraceCtx.getCurrentTraceContext w)
                      = Some id)
    ∧ ((∃ j, ("stack", j) ∈ fields)
       ↔ ExpressError.includeStack options = Some true
         ∨ ExpressError.includeStack options = None
           ∧ env !! "NODE_ENV" ≠ Some "production").
Proof.
  intros Hquiet Hformat. eexists _, _, _.
  split; [rewrite createErrorMiddleware_quiet, Hformat by done; reflexivity|].
  cbn [ExpressError.body]. unfold ExpressError.defaultErrorResponse.
  split; [reflexivity|].
  split; [rewrite elem_of_app, elem_of_cons; by left; left|].
  split; [rewrite elem_of_app, !elem_of_cons; by left; right; left|].
  assert (Hids : ∀ key j,
    key ≠ "message" → key ≠ "type" → key ≠ "stack" →
    (key, j) ∈
      [("message", JString (ExpressError.message err));
       ("type", JString (ExpressError.name err))]
      ++ (if ExpressError.resolveIncludeStack env options
          then [("stack", ExpressError.stackLines err)] else [])
      ++ fieldIf "correlationId"
           (TraceContext.correlationId (TraceCtx.getCurrentTraceContext w))
      ++ fieldIf "traceId" (TraceContext.traceId (TraceCtx.getCurrentTraceContext w))
      ++ fieldIf "requestId"
           (TraceContext.requestId (TraceCtx.getCurrentTraceContext w))
    ↔ (key, j) ∈ fieldIf "correlationId"
                   (TraceContext.correlationId (TraceCtx.getCurrentTraceContext w))
      ∨ (key, j) ∈ fieldIf "traceId"
                     (TraceContext.traceId (TraceCtx.getCurrentTraceContext w))
      ∨ (key, j) ∈ fieldIf "requestId"
                     (TraceContext.requestId (TraceCtx.getCurrentTraceContext w))).
  { intros key j ? ? ?. rewrite !elem_of_app, !elem_of_cons, elem_of_nil.
    destruct (ExpressError.resolveIncludeStack env options);
      rewrite ?list_elem_of_singleton, ?elem_of_nil; intuition congruence. }
  split; [|split; [|split]].
  - intros j. rewrite Hids by done. rewrite !elem_of_fieldIf. split.
    + intros [(_ & id & -> & ? & ?) | [([=] & _) | ([=] & _)]]. eauto.
    + intros (id & -> & ? & ?). left. eauto.
  - intros j. rewrite Hids by done. rewrite !elem_of_fieldIf. split.
    + intros [([=] & _) | [(_ & id & -> & ? & ?) | ([=] & _)]]. eauto.
    + intros (id & -> & ? & ?). right. left. eauto.
  - intros j. rewrite Hids by done. rewrite !elem_of_fieldIf. split.
    + intros [([=] & _) | [([=] & _) | (_ & id & -> & ? & ?)]]. eauto.
    + intros (id & -> & ? & ?). right. right. eauto.
  - rewrite <- resolveIncludeStack_true. split.
    + intros [j Hj]. rewrite !elem_of_app, !elem_of_fieldIf, !elem_of_cons in Hj.
      destruct (ExpressError.resolveIncludeStack env options); [done|].
      rewrite !elem_of_nil in Hj.
      destruct Hj as [[[=] | [[=] | []]] | [[] | [([=] & _) | [([=] & _) | ([=] & _)]]]].
    + intros ->. exists (ExpressError.stackLines err).
      rewrite !elem_of_app, list_elem_of_singleton. right. by left.
Qed.

Lemma error_middleware_default_body_witness :
  ∃ sent w' fields,
    @ExpressError.createErrorMiddleware Sample.api Cases.production Cases.quiet
      Cases.notFound (Sample.request ∅) Sample.response
      (withTraceStore
         (TraceContext.mk None None (Some "c-1") (Some "") None None None)
         Sample.world0)
    = (Returned sent, w')
    ∧ ExpressError.body sent = JObject [("error", JObject fields)]
    ∧ ("correlationId", JString "c-1") ∈ fields
    ∧ (∀ j, ("requestId", j) ∉ fields)
    ∧ ¬ (∃ j, ("stack", j) ∈ fields).
Proof.
  destruct (@error_middleware_default_body Sample.api Cases.production Cases.quiet
              Cases.notFound (Sample.request ∅) Sample.response
              (withTraceStore
                 (TraceContext.mk None None (Some "c-1") (Some "") None None None)
                 Sample.world0))
    as (sent & w' & fields & Hrun & Hbody & _ & _ & Hcorr & _ & Hreq & Hstack).
  - right. reflexivity.
  - reflexivity.
  - exists sent, w', fields. split; [exact Hrun|]. split; [exact Hbody|]. split.
    + apply Hcorr. exists "c-1". split; [reflexivity|]. split; [discriminate|reflexivity].
    + split.
      * intros j Hj. apply Hreq in Hj as (id & _ & Hne & Hid).
        cbn in Hid. injection Hid as <-. by apply Hne.
      * intros Hj. apply Hstack in Hj as [Hj | [_ Hj]]; [discriminate|].
        by apply Hj.
Defined.

(** X7.  A custom logger that throws keeps the error middleware from
    answering: the call throws what [logger.error] threw and nothing is
    sent, while the error is already recorded on the active span, whose
    status is ERROR with the message of the error. *)
Theorem error_middleware_throwing_logger `{!TraceCtx.Api} env options err req res w
    logError thrown span s :
  ExpressError.logger options = Some logError →
  ExpressError.logErrors options ≠ Some false →
  (∀ label fields w1, logError label fields w1 = (Thrown thrown, w1)) →
  activeSpan w = Some span →
  spans w !! span = Some s →
  ∃ w' s',
    ExpressError.createErrorMiddleware env options err req res w = (Thrown thrown, w')
    ∧ spans w' !! span = Some s'
    ∧ status s' = mkStatus ERROR (Some (ExpressError.message err))
    ∧ events s'
      = events s
        ++ [ExceptionRecorded (ExpressError.toJs err)
              (Some {[ "http.request.method" := AString (Express.method req);
                       "http.request.path" := AString (Express.path req) ]})].
Proof.
  intros Hlogger Hlog Hthrows Hactive Hs.
  unfold ExpressError.createErrorMiddleware.
  unfold mbind at 1, M_bind at 1. cbn beta iota.
  unfold mbind at 1, M_bind at 1. rewrite recordException_run.
  unfold mbind at 1, M_bind at 1. rewrite setSpanStatus_run.
  unfold mbind at 1, M_bind at 1. rewrite Hlogger.
  assert (default true (ExpressError.logErrors options) = true) as ->.
  { destruct (ExpressError.logErrors options) as [[]|]; done. }
  unfold mbind at 1, M_bind at 1. rewrite Hthrows.
  eexists _, _. split; [reflexivity|].
  rewrite !onActiveSpan_lookup, Hs by (by rewrite ?onActiveSpan_active).
  done.
Qed.

Lemma error_middleware_throwing_logger_witness :
  ∃ w' s',
    @ExpressError.createErrorMiddleware Sample.api ∅ Cases.withBrokenLogger
      Cases.notFound (Sample.request ∅) Sample.response Sample.worldServing
    = (Thrown (JsError "Error" "log transport down" None), w')
    ∧ spans w' !! 0%nat = Some s'
    ∧ status s' = mkStatus ERROR (Some "no such user").
Proof.
  destruct (@error_middleware_throwing_logger Sample.api ∅ Cases.withBrokenLogger
              Cases.notFound (Sample.request ∅) Sample.response Sample.worldServing
              Cases.brokenLogger (JsError "Error" "log transport down" None)
              0%nat Sample.serverSpan)
    as (w' & s' & Hrun & Hs' & Hstatus & _).
  - reflexivity.
  - discriminate.
  - reflexivity.
  - reflexivity.
  - reflexivity.
  - exists w', s'. split; [exact Hrun|]. split; [exact Hs'|]. exact Hstatus.
Defined.

(** X8.  An error answered by the error middleware on a response the
    tracing middleware has prepared, with no [formatError] or one that
    returns and leaves the spans alone: once the response has finished, the
    span carries the recorded error and the status code that was sent, and
    its status is decided by that code alone - ERROR with [HTTP {code}]
    from 500 on, OK below, a 4xx error included; the message of the error
    does not remain in the status. *)
Theorem error_then_finish_status `{!TraceCtx.Api} env options err req res w span s :
  ExpressError.logger options = None ∨ ExpressError.logErrors options = Some false →
  (ExpressError.formatError options = None
   ∨ ∃ format, ExpressError.formatError options = Some format
               ∧ ∀ w1, ∃ body, format err req w1 = (Returned body, w1)) →
  Express.finishListeners res = [Express.recordStatusCode] →
  activeSpan w = Some span →
  spans w !! span = Some s →
  ∃ w' s',
    (sent ← ExpressError.createErrorMiddleware env options err req res;
     Express.emitFinish (ExpressError.response sent)) w = (Returned tt, w')
    ∧ spans w' !! span = Some s'
    ∧ events s'
      = events s
        ++ [ExceptionRecorded (ExpressError.toJs err)
              (Some {[ "http.request.method" := AString (Express.method req);
                       "http.request.path" := AString (Express.path req) ]})]
    ∧ attributes s' !! "http.response.status_code"
      = Some (ANumber (ExpressError.responseStatus err))
    ∧ status s'
      = (if bool_decide (500 ≤ ExpressError.responseStatus err)%Z
         then mkStatus ERROR (Some ("HTTP " +:+ pretty (ExpressError.responseStatus err)))
         else mkStatus OK None).
Proof.
  intros Hquiet Hformat Hlisteners Hactive Hs.
  unfold mbind at 1, M_bind at 1.
  rewrite createErrorMiddleware_quiet by done.
  set (w1 := onActiveSpan _ (onActiveSpan _ w)).
  assert (∃ body,
    match ExpressError.formatError options with
    | Some format => format err req
    | None =>
        mret (ExpressError.defaultErrorResponse
                (ExpressError.resolveIncludeStack env options) err
                (TraceCtx.getCurrentTraceContext w))
    end w1 = (Returned body, w1)) as (body & Hbody).
  { destruct Hformat as [-> | (format & -> & Hreturns)]; [by eexists|].
    apply Hreturns. }
  unfold mbind at 1, M_bind at 1. rewrite Hbody. cbn [mret M_ret].
  cbn [ExpressError.response]. unfold Express.emitFinish. cbn [Express.finishListeners
    Express.status Express.statusCode]. rewrite Hlisteners. cbn [foldr].
  assert (Hactive1 : activeSpan w1 = Some span).
  { subst w1. by rewrite !onActiveSpan_active. }
  assert (Hs1 : spans w1 !! span
                = Some (SpanObject.setStatus
                          (mkStatus ERROR (Some (ExpressError.message err)))
                          (SpanObject.recordException (ExpressError.toJs err)
                             (Some {[ "http.request.method" := AString (Express.method req);
                                      "http.request.path" := AString (Express.path req) ]})
                             s))).
  { subst w1. rewrite !onActiveSpan_lookup, Hs by (by rewrite ?onActiveSpan_active).
    done. }
  destruct (recordStatusCode_run (ExpressError.responseStatus err) w1 span _
              Hactive1 Hs1) as (w' & s' & Hrun & Hs' & Hattrs & Hstatus).
  unfold mbind at 1, M_bind at 1. rewrite Hrun.
  exists w', s'. split; [reflexivity|]. split; [done|].
  split; [|split; [|done]].
  - unfold Express.recordStatusCode, SpanUtils.addSpanAttributes,
      SpanUtils.setSpanStatus, SpanUtils.getCurrentSpan, onSpan, mbind, M_bind in Hrun.
    rewrite Hactive1 in Hrun.
    destruct (bool_decide (500 ≤ _)%Z); [|destruct (bool_decide _)];
      cbn in Hrun; rewrite Hactive1 in Hrun; injection Hrun as <-;
      cbn in Hs'; rewrite !list_lookup_alter_eq, Hs1 in Hs';
      by injection Hs' as <-.
  - rewrite Hattrs. apply lookup_union_Some_l. by rewrite lookup_singleton_eq.
Qed.

Lemma error_then_finish_status_witness :
  ∃ w' s',
    (sent ← @ExpressError.createErrorMiddleware Sample.api ∅ Cases.quiet
              Cases.notFound (Sample.request ∅) Cases.tracedResponse;
     Express.emitFinish (ExpressError.response sent)) Sample.worldServing
    = (Returned tt, w')
    ∧ spans w' !! 0%nat = Some s'
    ∧ attributes s' !! "http.response.status_code" = Some (ANumber 404)
    ∧ status s' = mkStatus OK None.
Proof.
  destruct (@error_then_finish_status Sample.api ∅ Cases.quiet Cases.notFound
              (Sample.request ∅) Cases.tracedResponse Sample.worldServing 0%nat
              Sample.serverSpan)
    as (w' & s' & Hrun & Hs' & _ & Hattr & Hstatus).
  - right. reflexivity.
  - left. reflexivity.
  - reflexivity.
  - reflexivity.
  - reflexivity.
  - exists w', s'. split; [exact Hrun|]. split; [exact Hs'|]. split; [exact Hattr|].
    exact Hstatus.
Defined.

(** ** The Service Bus adapters *)

(** The wrapped handler when the message carries a non-empty correlation
    id: nothing is generated, and the handler is called in the world [wh]
    with the context built from the properties. *)
Lemma withServiceBusTracing_keeps_correlationId `{!TraceCtx.Api} {T}
    (handler : ServiceBus.MessageHandler T) options message w id :
  default ∅ (ServiceBus.applicationProperties message) !! "correlationId" = Some id →
  id ≠ "" →
  let props := default ∅ (ServiceBus.applicationProperties message) in
  let traceContext := TraceCtx.extractTraceFromServiceBusMessage props in
  let spanName :=
    match options ≫= ServiceBus.spanName with
    | Some (inr f) => f message
    | Some (inl name) =>
        if bool_decide (name ≠ "") then name
        else "consume " +:+ orElse (props !! "eventType") "message"
    | None => "consume " +:+ orElse (props !! "eventType") "message"
    end in
  ServiceBus.withServiceBusTracing handler options message w
  = TraceCtx.runWithTraceContext traceContext
      (SpanUtils.withSpan spanName
         (λ span,
           onSpan span
             (SpanObject.setAttributes
                (ServiceBus.consumerAttributes options message traceContext));;
           handler message
             (ServiceBus.mkHandlerContext (Some id) (props !! "traceId")
                (props !! "eventId") (props !! "eventType") (props !! "userId")))
         (Some (SpanUtils.mkSpanOptions (Some CONSUMER) None))) w.
Proof.
  intros Hid Hne props traceContext spanName.
  unfold ServiceBus.withServiceBusTracing. fold props. fold traceContext.
  assert (Hcorr : TraceContext.correlationId traceContext = Some id) by done.
  rewrite Hcorr. cbn [truthy]. rewrite bool_decide_eq_true_2 by done.
  cbn [negb]. unfold mbind at 1, M_bind at 1. cbn [mret M_ret].
  rewrite Hcorr. reflexivity.
Qed.

Lemma lookup_setIf_ne cond key value (attrs : gmap string AttributeValue) k :
  key ≠ k → setIf cond key value attrs !! k = attrs !! k.
Proof. intros Hne. destruct cond; cbn; [by rewrite lookup_insert_ne|done]. Qed.

Lemma lookup_insertIf_ne {A} (o : option A) key (f : A → AttributeValue)
    (attrs : gmap string AttributeValue) k :
  key ≠ k →
  match o with Some x => <[key := f x]> attrs | None => attrs end !! k = attrs !! k.
Proof. intros Hne. destruct o; [by rewrite lookup_insert_ne|done]. Qed.

(** X9.  For a message that carries a non-empty [correlationId], the
    wrapped handler generates nothing: the user handler is called with that
    id in its context, the trace context holds it while the handler runs,
    and, unless [additionalAttributes] is given, the consumer span carries
    it as [correlation.id]. *)
Theorem consumer_keeps_given_correlationId `{!TraceCtx.Api} {T}
    (handler : ServiceBus.MessageHandler T) options message w id :
  default ∅ (ServiceBus.applicationProperties message) !! "correlationId" = Some id →
  id ≠ "" →
  ∃ context wh s,
    ServiceBus.correlationId context = Some id
    ∧ idsDrawn wh = idsDrawn w
    ∧ TraceContext.correlationId (traceStore wh) = Some id
    ∧ activeSpan wh = Some (length (spans w))
    ∧ spans wh !! length (spans w) = Some s
    ∧ spanKind s = Some CONSUMER
    ∧ (options ≫= ServiceBus.additionalAttributes = None →
       attributes s !! "correlation.id" = Some (AString id))
    ∧ fst (ServiceBus.withServiceBusTracing handler options message w)
      = fst (handler message context wh).
Proof.
  intros Hid Hne.
  rewrite (withServiceBusTracing_keeps_correlationId handler options message w id)
    by done.
  rewrite runWithTraceContext_outcome, withSpan_outcome.
  unfold mbind at 1, M_bind at 1, onSpan at 1.
  eexists _, _, _. repeat apply conj.
  8: reflexivity.
  1-2: reflexivity.
  { exact Hid. }
  { reflexivity. }
  { cbn. rewrite list_lookup_alter_eq, lookup_app_r by lia.
    rewrite Nat.sub_diag. reflexivity. }
  { reflexivity. }
  intros Hextra. cbn [attributes SpanObject.setAttributes].
  apply lookup_union_Some_l.
  unfold ServiceBus.consumerAttributes.
  destruct options as [opts|]; cbn [mbind option_bind] in Hextra |- *;
    rewrite ?Hextra;
    cbn [TraceContext.correlationId TraceContext.eventId TraceContext.eventType
         TraceContext.userId TraceCtx.extractTraceFromServiceBusMessage];
    rewrite Hid;
    rewrite lookup_insertIf_ne, lookup_insertIf_ne by done;
    rewrite !lookup_setIf_ne by done;
    cbn [truthy]; rewrite bool_decide_eq_true_2 by done; cbn [setIf default];
    by rewrite lookup_insert_eq.
Qed.

Lemma consumer_keeps_given_correlationId_witness :
  ∃ context wh s,
    ServiceBus.correlationId context = Some "c-1"
    ∧ idsDrawn wh = 0%nat
    ∧ spans wh !! 0%nat = Some s
    ∧ attributes s !! "correlation.id" = Some (AString "c-1")
    ∧ fst (@ServiceBus.withServiceBusTracing Sample.api _
             Sample.handlerReadsCorrelationId None (Sample.message Cases.userCreated)
             Sample.world0)
      = fst (Sample.handlerReadsCorrelationId (Sample.message Cases.userCreated)
               context wh).
Proof.
  destruct (@consumer_keeps_given_correlationId Sample.api _
              Sample.handlerReadsCorrelationId None (Sample.message Cases.userCreated)
              Sample.world0 "c-1")
    as (context & wh & s & Hctx & Hids & _ & _ & Hs & _ & Hattr & Hrun).
  - reflexivity.
  - discriminate.
  - exists context, wh, s. split; [exact Hctx|]. split; [exact Hids|].
    split; [exact Hs|]. split; [by apply Hattr|exact Hrun].
Defined.

Lemma addSpanEvent_run name attrs w :
  SpanUtils.addSpanEvent name attrs w
  = (Returned tt, onActiveSpan (SpanObject.addEvent name attrs) w).
Proof.
  unfold SpanUtils.addSpanEvent, SpanUtils.getCurrentSpan, onActiveSpan, onSpan,
    mbind, M_bind.
  by destruct (activeSpan w).
Qed.

(** X10.  When the user handler throws an [Error], the wrapped handler
    throws that same error after calling the handler once, whatever the
    handler does to the world before it throws ([effect]).  The handler is
    called in a world [wh] that holds one more span than before, of kind
    CONSUMER, active, without events and not ended.  The world the caller
    gets back is the one a single run of the handler leaves, [effect wh],
    but for the consumer span, which has status ERROR with the message of
    the error, the error recorded after the events of the handler and one
    more call to [end], and for the trace context and the active span,
    which are those of the caller again. *)
Theorem consumer_handler_error_reaches_caller `{!TraceCtx.Api} {T}
    (handler : ServiceBus.MessageHandler T) (effect : World → World)
    options message w name message' stack :
  (∀ context wh,
     handler message context wh = (Thrown (JsError name message' stack), effect wh)) →
  ∃ wh s0 w',
    spans wh = spans w ++ [s0]
    ∧ activeSpan wh = Some (length (spans w))
    ∧ spanKind s0 = Some CONSUMER
    ∧ events s0 = []
    ∧ status s0 = mkStatus UNSET None
    ∧ endCalls s0 = 0%nat
    ∧ ServiceBus.withServiceBusTracing handler options message w
      = (Thrown (JsError name message' stack), w')
    ∧ (∀ sh, spans (effect wh) !! length (spans w) = Some sh →
             spans w' !! length (spans w)
             = Some (mkSpan (spanName sh) (spanKind sh) (parentSpan sh) (attributes sh)
                       (events sh ++ [ExceptionRecorded (JsError name message' stack) None])
                       (mkStatus ERROR (Some message')) (S (endCalls sh))))
    ∧ (∀ j, j ≠ length (spans w) → spans w' !! j = spans (effect wh) !! j)
    ∧ traceStore w' = traceStore w
    ∧ activeSpan w' = activeSpan w
    ∧ idsDrawn w' = idsDrawn (effect wh).
Proof.
  intros Hthrows.
  unfold ServiceBus.withServiceBusTracing.
  set (extracted := TraceCtx.extractTraceFromServiceBusMessage _).
  destruct (negb (truthy (TraceContext.correlationId extracted)));
    unfold mbind at 1, M_bind at 1; cbn [mret M_ret];
    try (unfold mbind at 1, M_bind at 1, TraceCtx.generateCorrelationId at 1;
         cbn [mret M_ret]);
    unfold TraceCtx.runWithTraceContext;
    match goal with
    | |- context [SpanUtils.withSpan ?n ?fn ?o ?w0] =>
        match goal with
        | |- context [ServiceBus.consumerAttributes options message ?traceContext] =>
            pose (wh := withSpans
                          (alter
                             (SpanObject.setAttributes
                                (ServiceBus.consumerAttributes options message
                                   traceContext))
                             (length (spans w0)))
                          (SpanUtils.atCallback n o w0));
            rewrite (withSpan_thrown n fn o w0 (JsError name message' stack)
                       (effect wh))
              by (unfold mbind, M_bind, onSpan; by rewrite Hthrows);
            assert (Hwh : spans wh
                          = spans w
                            ++ [SpanObject.setAttributes
                                  (ServiceBus.consumerAttributes options message
                                     traceContext)
                                  (SpanUtils.newSpan n (SpanUtils.spanOptionsOf o) w0)])
              by (subst wh; cbn [spans withSpans SpanUtils.atCallback
                                   SpanUtils.enterSpan withActiveSpan withTraceStore
                                   withIdsDrawn];
                  rewrite alter_app_r_alt, Nat.sub_diag by lia; reflexivity);
            assert (Hactive : activeSpan wh = Some (length (spans w)))
              by reflexivity;
            assert (Hlength : length (spans w0) = length (spans w)) by reflexivity;
            exists wh; clearbody wh
        end
    end.
  all: eexists _, _.
  all: split; [exact Hwh|].
  all: split; [exact Hactive|].
  all: do 4 (split; [reflexivity|]).
  all: split; [reflexivity|].
  all: rewrite Hlength.
  all: cbn [spans withSpans withActiveSpan withTraceStore withIdsDrawn traceStore
            activeSpan idsDrawn instanceofError errorMessage].
  all: split; [intros sh Hsh; rewrite !list_lookup_alter_eq, Hsh; reflexivity|].
  all: split; [intros j Hj; by rewrite !list_lookup_alter_ne by done|].
  all: split; [reflexivity|].
  all: split; reflexivity.
Qed.

Lemma consumer_handler_error_reaches_caller_witness :
  ∃ w' s,
    @ServiceBus.withServiceBusTracing Sample.api _
      (Cases.handlerMarksAttempt Sample.dbDown) None
      (Sample.message Cases.userCreated) Sample.world0
    = (Thrown Sample.dbDown, w')
    ∧ spans w' !! 0%nat = Some s
    ∧ events s = [EventAdded "attempt" None; ExceptionRecorded Sample.dbDown None]
    ∧ status s = mkStatus ERROR (Some "db down")
    ∧ endCalls s = 1%nat.
Proof.
  destruct (@consumer_handler_error_reaches_caller Sample.api _
              (Cases.handlerMarksAttempt Sample.dbDown)
              (onActiveSpan (SpanObject.addEvent "attempt" None))
              None (Sample.message Cases.userCreated) Sample.world0
              "Error" "db down" None)
    as (wh & s0 & w' & Hspans & Hactive & _ & Hevents & _ & Hend & Hrun & Hspan & _).
  - intros context wh. unfold Cases.handlerMarksAttempt.
    unfold mbind, M_bind. rewrite addSpanEvent_run. reflexivity.
  - assert (Hsh : spans (onActiveSpan (SpanObject.addEvent "attempt" None) wh)
                  !! length (spans Sample.world0)
                  = Some (SpanObject.addEvent "attempt" None s0)).
    { rewrite (onActiveSpan_lookup _ _ _ Hactive), Hspans. reflexivity. }
    apply Hspan in Hsh. cbn [SpanObject.addEvent events endCalls] in Hsh.
    rewrite Hevents, Hend in Hsh.
    eexists w', _. split; [exact Hrun|]. split; [exact Hsh|].
    split; [reflexivity|]. split; reflexivity.
Defined.

(** X11.  [withServiceBusProducerTracing] leaves the property bag as
    the injection left it and adds exactly one span, of kind PRODUCER, with
    status OK and one call to [end].  The span attributes are read from the
    bag after the injection: [messaging.message.id] and [event.type] fall
    back to ['unknown'] when [eventId] or [eventType] is missing or empty,
    and [correlation.id] is set exactly when the bag then holds a non-empty
    [correlationId]. *)
Theorem producer_span `{!ServiceBusProducer.Injector} messageProperties spanName' w :
  let injected :=
    ServiceBusProducer.injectTraceIntoServiceBusMessage messageProperties
      (SpanUtils.atCallback spanName'
         (Some (SpanUtils.mkSpanOptions (Some PRODUCER) None)) w) in
  ∃ w' s,
    ServiceBusProducer.withServiceBusProducerTracing messageProperties spanName' w
    = (Returned injected, w')
    ∧ spans w' = spans w ++ [s]
    ∧ spanName s = spanName'
    ∧ spanKind s = Some PRODUCER
    ∧ status s = mkStatus OK None
    ∧ endCalls s = 1%nat
    ∧ attributes s !! "messaging.system" = Some (AString "servicebus")
    ∧ attributes s !! "messaging.operation" = Some (AString "publish")
    ∧ attributes s !! "messaging.message.id"
      = Some (AString (orElse (injected !! "eventId") "unknown"))
    ∧ attributes s !! "event.type"
      = Some (AString (orElse (injected !! "eventType") "unknown"))
    ∧ attributes s !! "correlation.id"
      = (if truthy (injected !! "correlationId")
         then AString <$> injected !! "correlationId" else None)
    ∧ activeSpan w' = activeSpan w.
Proof.
  intros injected. unfold ServiceBusProducer.withServiceBusProducerTracing.
  set (options := Some (SpanUtils.mkSpanOptions (Some PRODUCER) None)) in *.
  destruct (truthy (injected !! "correlationId")) eqn:Hcorr.
  - eexists _, _. split.
    { apply withSpan_returned. unfold mbind, M_bind, onSpan. fold injected.
      rewrite Hcorr. reflexivity. }
    cbn. rewrite !alter_app_r_alt, Nat.sub_diag by lia. cbn.
    split; [reflexivity|]. cbn.
    destruct (injected !! "correlationId") as [id|]; [|done]. cbn.
    rewrite lookup_insert_eq. rewrite !lookup_insert_ne by done.
    repeat split; apply lookup_union_Some_l; by simplify_map_eq.
  - eexists _, _. split.
    { apply withSpan_returned. unfold mbind, M_bind, onSpan. fold injected.
      rewrite Hcorr. reflexivity. }
    cbn. rewrite !alter_app_r_alt, Nat.sub_diag by lia. cbn.
    split; [reflexivity|]. cbn.
    repeat split;
      first [ done
            | apply lookup_union_Some_l; by simplify_map_eq
            | by rewrite lookup_union_r by by simplify_map_eq ].
Qed.

Lemma readMessage_run v w :
  v ≠ JsUndefined →
  ServiceBusProducer.readMessage v w = (Returned (ServiceBusProducer.messageOf v), w).
Proof. by destruct v. Qed.

(** X12.  For an error that is not [undefined], the Service Bus error
    handler finishes its work on the span before [onError] runs: [onError]
    is called in a world [w1] in which the active span carries the call to
    [recordException] for the error and status ERROR with the [message]
    property of the error, an [Error] or not; and the handler settles as
    [onError] does, from the world [onError] leaves: when [onError] throws
    the handler throws the same value, and when it returns nothing is
    written to the console. *)
Theorem servicebus_error_handler_records_before_onError onError args w span s :
  ServiceBusProducer.error args ≠ JsUndefined →
  activeSpan w = Some span →
  spans w !! span = Some s →
  ∃ w1 s1,
    activeSpan w1 = Some span
    ∧ spans w1 !! span = Some s1
    ∧ status s1
      = mkStatus ERROR (ServiceBusProducer.messageOf (ServiceBusProducer.error args))
    ∧ (∃ attrs,
         events s1 = events s ++ [ExceptionRecorded (ServiceBusProducer.error args) attrs])
    ∧ (∀ thrown w2,
         onError args w1 = (Thrown thrown, w2) →
         ServiceBusProducer.createServiceBusErrorHandler (Some onError) args w
         = (Thrown thrown, w2))
    ∧ (∀ w2,
         onError args w1 = (Returned tt, w2) →
         ServiceBusProducer.createServiceBusErrorHandler (Some onError) args w
         = (Returned [], w2)).
Proof.
  intros Hdefined Hactive Hs.
  set (w1 :=
    onActiveSpan
      (SpanObject.setStatus
         (mkStatus ERROR (ServiceBusProducer.messageOf (ServiceBusProducer.error args))))
      (onActiveSpan
         (SpanObject.recordException (ServiceBusProducer.error args)
            (Some {[ "messaging.system" := AString "servicebus";
                     "messaging.error.source" :=
                       AString (ServiceBusProducer.errorSource args);
                     "messaging.destination" :=
                       AString (ServiceBusProducer.entityPath args);
                     "messaging.url" :=
                       AString (ServiceBusProducer.fullyQualifiedNamespace args) ]}))
         w)).
  assert (Hhandler :
    ServiceBusProducer.createServiceBusErrorHandler (Some onError) args w
    = ((onError args;; mret []) : M (list ConsoleCall)) w1).
  { unfold ServiceBusProducer.createServiceBusErrorHandler.
    unfold mbind at 1, M_bind at 1. rewrite recordException_run.
    unfold mbind at 1, M_bind at 1. rewrite readMessage_run by done.
    unfold mbind at 1, M_bind at 1. rewrite setSpanStatus_run. reflexivity. }
  rewrite Hhandler. clear Hhandler.
  assert (Hs1 : spans w1 !! span
                = Some (SpanObject.setStatus
                          (mkStatus ERROR
                             (ServiceBusProducer.messageOf (ServiceBusProducer.error args)))
                          (SpanObject.recordException (ServiceBusProducer.error args)
                             (Some {[ "messaging.system" := AString "servicebus";
                                      "messaging.error.source" :=
                                        AString (ServiceBusProducer.errorSource args);
                                      "messaging.destination" :=
                                        AString (ServiceBusProducer.entityPath args);
                                      "messaging.url" :=
                                        AString
                                          (ServiceBusProducer.fullyQualifiedNamespace
                                             args) ]})
                             s))).
  { subst w1. rewrite !onActiveSpan_lookup, Hs by (by rewrite ?onActiveSpan_active).
    reflexivity. }
  assert (Hactive1 : activeSpan w1 = Some span).
  { subst w1. by rewrite !onActiveSpan_active. }
  clearbody w1. eexists w1, _.
  split; [exact Hactive1|]. split; [exact Hs1|]. split; [reflexivity|].
  split; [by eexists|]. split.
  - intros thrown w2 Hrun. unfold mbind, M_bind. by rewrite Hrun.
  - intros w2 Hrun. unfold mbind, M_bind. by rewrite Hrun.
Qed.

Lemma servicebus_error_handler_records_before_onError_witness :
  ∃ w1 s1,
    spans w1 !! 0%nat = Some s1
    ∧ status s1 = mkStatus ERROR (Some "lock lost")
    ∧ ServiceBusProducer.createServiceBusErrorHandler (Some Cases.failingOnError)
        Cases.processErrorPlainObject Sample.worldServing
      = (Thrown (JsError "Error" "alerting down" None), w1).
Proof.
  destruct (servicebus_error_handler_records_before_onError Cases.failingOnError
              Cases.processErrorPlainObject Sample.worldServing 0%nat Sample.serverSpan)
    as (w1 & s1 & _ & Hs1 & Hstatus & _ & Hthrows & _).
  - discriminate.
  - reflexivity.
  - reflexivity.
  - exists w1, s1. split; [exact Hs1|]. split; [exact Hstatus|].
    apply Hthrows. reflexivity.
Defined.

(** ** The tracer configuration *)

Lemma truthy_default_nonempty (o : option string) :
  truthy o = true → default "" o ≠ "".
Proof.
  destruct o as [s|]; cbn; [|done]. by intros ?%bool_decide_eq_true.
Qed.

Lemma truthy_Some (s : string) : s ≠ "" → truthy (Some s) = true.
Proof. intros Hs. cbn. by apply bool_decide_eq_true. Qed.

(** X13.  The OTLP endpoint [initTracing] resolves is never empty, and a
    non-empty endpoint given in the configuration is taken as it is,
    whatever the environment holds. *)
Theorem resolveEndpoint_nonempty config env :
  Tracer.resolveEndpoint config env ≠ ""
  ∧ (∀ endpoint, Tracer.otlpEndpoint config = Some endpoint → endpoint ≠ "" →
                 Tracer.resolveEndpoint config env = endpoint).
Proof.
  split.
  - unfold Tracer.resolveEndpoint.
    set (e0 := nullish _ _).
    set (e1 := if negb (truthy e0) then _ else e0).
    set (e2 := if negb (truthy e1) && _ then _ else e1).
    destruct (truthy e2) eqn:He2; cbn [negb].
    + by apply truthy_default_nonempty.
    + cbn. unfold Tracer.defaultPort.
      by destruct (default Tracer.Http (Tracer.otlpProtocol config)).
  - intros endpoint Hconfig Hne. unfold Tracer.resolveEndpoint.
    rewrite Hconfig. cbn [nullish].
    repeat (rewrite (truthy_Some endpoint Hne); cbn [negb andb]). done.
Qed.

Lemma resolveEndpoint_nonempty_witness :
  Tracer.resolveEndpoint (Cases.configWithEndpoint "http://agent:4318")
    {[ "OTEL_EXPORTER_OTLP_ENDPOINT" := "http://elsewhere:4318" ]}
  = "http://agent:4318".
Proof.
  apply (proj2 (resolveEndpoint_nonempty (Cases.configWithEndpoint "http://agent:4318")
                  {[ "OTEL_EXPORTER_OTLP_ENDPOINT" := "http://elsewhere:4318" ]})).
  - reflexivity.
  - discriminate.
Defined.

(** X14.  The protocol named by [OTEL_EXPORTER_OTLP_PROTOCOL] never changes
    the resolved endpoint: the fallback port follows [config.otlpProtocol]
    alone.  So when gRPC is chosen by the environment only and no endpoint
    is configured anywhere, the gRPC exporter is pointed at port 4318. *)
Theorem endpoint_ignores_environment_protocol config env protocol :
  Tracer.resolveEndpoint config (<["OTEL_EXPORTER_OTLP_PROTOCOL" := protocol]> env)
  = Tracer.resolveEndpoint config env
  ∧ (Tracer.otlpProtocol config = None →
     Tracer.otlpEndpoint config = None →
     env !! "OTEL_EXPORTER_OTLP_TRACES_ENDPOINT" = None →
     env !! "OTEL_EXPORTER_OTLP_ENDPOINT" = None →
     env !! "DD_AGENT_HOST" = None →
     Tracer.createExporter
       (Tracer.resolveProtocol config (<["OTEL_EXPORTER_OTLP_PROTOCOL" := "grpc"]> env))
       (Tracer.resolveEndpoint config (<["OTEL_EXPORTER_OTLP_PROTOCOL" := "grpc"]> env))
     = Tracer.OTLPGrpcTraceExporter "http://localhost:4318").
Proof.
  assert (Hsame : ∀ p,
    Tracer.resolveEndpoint config (<["OTEL_EXPORTER_OTLP_PROTOCOL" := p]> env)
    = Tracer.resolveEndpoint config env).
  { intros p. unfold Tracer.resolveEndpoint. by rewrite !lookup_insert_ne by done. }
  split; [apply Hsame|].
  intros Hprotocol Hconfig Htraces Hendpoint Hhost. rewrite Hsame.
  unfold Tracer.resolveProtocol, Tracer.resolveEndpoint, Tracer.defaultPort.
  rewrite Hprotocol, Hconfig, Htraces, Hendpoint, Hhost, lookup_insert_eq.
  reflexivity.
Qed.

Lemma endpoint_ignores_environment_protocol_witness :
  Tracer.createExporter
    (Tracer.resolveProtocol Cases.noConfig Cases.grpcByEnvironment)
    (Tracer.resolveEndpoint Cases.noConfig Cases.grpcByEnvironment)
  = Tracer.OTLPGrpcTraceExporter "http://localhost:4318".
Proof.
  apply (proj2 (endpoint_ignores_environment_protocol Cases.noConfig ∅ "grpc"));
    reflexivity.
Defined.

Lemma endsWith_refl p : endsWith p p = true.
Proof. destruct p; cbn; [done|]. by rewrite Ascii.eqb_refl, String.eqb_refl. Qed.

Lemma endsWith_append p s : endsWith p (s +:+ p) = true.
Proof.
  induction s as [|c s IH].
  - apply endsWith_refl.
  - change (String c s +:+ p) with (String c (s +:+ p)). cbn [endsWith].
    rewrite IH. apply orb_true_r.
Qed.

(** X15.  For every protocol other than ['grpc'] the exporter is the HTTP
    one and its URL ends with [/v1/traces]: the URL is the endpoint itself
    when the endpoint ends with that suffix, and the endpoint followed by
    the suffix when it does not, so the suffix is never there twice and
    building the exporter again from its own URL changes nothing.  For
    ['grpc'] the endpoint is used as it is. *)
Theorem http_exporter_url_ends_with_traces_path protocol endpoint :
  (protocol ≠ "grpc" →
   ∃ url,
     Tracer.createExporter protocol endpoint = Tracer.OTLPHttpTraceExporter url
     ∧ endsWith "/v1/traces" url = true
     ∧ (endsWith "/v1/traces" endpoint = true → url = endpoint)
     ∧ (endsWith "/v1/traces" endpoint = false → url = endpoint +:+ "/v1/traces")
     ∧ Tracer.createExporter protocol url = Tracer.OTLPHttpTraceExporter url)
  ∧ Tracer.createExporter "grpc" endpoint = Tracer.OTLPGrpcTraceExporter endpoint.
Proof.
  split; [|done]. intros Hprotocol. unfold Tracer.createExporter.
  rewrite bool_decide_eq_false_2 by done.
  destruct (endsWith "/v1/traces" endpoint) eqn:Hends.
  - exists endpoint. by rewrite Hends.
  - exists (endpoint +:+ "/v1/traces"). rewrite endsWith_append. done.
Qed.

Lemma http_exporter_url_ends_with_traces_path_witness :
  ∃ url,
    Tracer.createExporter "http/protobuf" "http://localhost:4318"
    = Tracer.OTLPHttpTraceExporter url
    ∧ url = "http://localhost:4318/v1/traces"
    ∧ Tracer.createExporter "http/protobuf" url = Tracer.OTLPHttpTraceExporter url.
Proof.
  destruct (proj1 (http_exporter_url_ends_with_traces_path "http/protobuf"
                     "http://localhost:4318"))
    as (url & Hrun & _ & _ & Hmissing & Hagain).
  - discriminate.
  - exists url. split; [exact Hrun|]. split; [|exact Hagain].
    apply Hmissing. reflexivity.
Defined.

(** [split] never yields an empty list, and splitting around a separator
    splits both sides. *)
Lemma splitOn_nonempty sep s : TraceCtx.splitOn sep s ≠ [].
Proof.
  destruct s as [|c s]; cbn; [done|].
  destruct (Ascii.eqb c sep); [done|]. by destruct (TraceCtx.splitOn sep s).
Qed.

Lemma splitOn_append sep a b :
  TraceCtx.splitOn sep (a +:+ String sep b)
  = TraceCtx.splitOn sep a ++ TraceCtx.splitOn sep b.
Proof.
  induction a as [|c a IH].
  - change ("" +:+ String sep b) with (String sep b). cbn.
    by rewrite Ascii.eqb_refl.
  - change (String c a +:+ String sep b) with (String c (a +:+ String sep b)).
    cbn. rewrite IH. destruct (Ascii.eqb c sep); [done|].
    pose proof (splitOn_nonempty sep a).
    by destruct (TraceCtx.splitOn sep a).
Qed.

Lemma addResourceEntry_pair attrs key value :
  noChar "=" key → noChar "=" value → key ≠ "" → value ≠ "" →
  Tracer.addResourceEntry attrs (key +:+ "=" +:+ value)
  = <[trim key := trim value]> attrs.
Proof.
  intros Hkey Hvalue Hk Hv. unfold Tracer.addResourceEntry.
  change ("=" +:+ value) with (String "="%char value).
  rewrite splitOn_field by done. rewrite splitOn_no_separator by done.
  by rewrite !bool_decide_eq_true_2.
Qed.

(** X16.  One entry of [OTEL_RESOURCE_ATTRIBUTES]: an entry without [=]
    and an entry with an empty value set nothing; [key=value] sets the
    trimmed key to the trimmed value; and whatever follows a second [=] is
    dropped. *)
Theorem resource_entry_parsing attrs :
  (∀ attr, noChar "=" attr → Tracer.addResourceEntry attrs attr = attrs)
  ∧ (∀ key, noChar "=" key → Tracer.addResourceEntry attrs (key +:+ "=") = attrs)
  ∧ (∀ key value, noChar "=" key → noChar "=" value → key ≠ "" → value ≠ "" →
       Tracer.addResourceEntry attrs (key +:+ "=" +:+ value)
       = <[trim key := trim value]> attrs)
  ∧ (∀ key value rest, noChar "=" key → noChar "=" value → key ≠ "" → value ≠ "" →
       Tracer.addResourceEntry attrs (key +:+ "=" +:+ value +:+ "=" +:+ rest)
       = <[trim key := trim value]> attrs).
Proof.
  repeat apply conj.
  - intros attr Hattr. unfold Tracer.addResourceEntry.
    by rewrite splitOn_no_separator.
  - intros key Hkey. unfold Tracer.addResourceEntry.
    change ("=") with (String "="%char ""). rewrite splitOn_field by done. cbn.
    by rewrite andb_false_r.
  - apply addResourceEntry_pair.
  - intros key value rest Hkey Hvalue Hk Hv. unfold Tracer.addResourceEntry.
    change ("=" +:+ value +:+ "=" +:+ rest)
      with (String "="%char (value +:+ String "="%char rest)).
    rewrite !splitOn_field by done.
    pose proof (splitOn_nonempty "=" rest).
    by rewrite !bool_decide_eq_true_2.
Qed.

Lemma resource_entry_parsing_witness :
  Tracer.addResourceEntry ∅ "team" = ∅
  ∧ Tracer.addResourceEntry ∅ "team=" = ∅
  ∧ Tracer.addResourceEntry ∅ " team = platform " = {[ "team" := "platform" ]}
  ∧ Tracer.addResourceEntry ∅ "team=platform=eu" = {[ "team" := "platform" ]}.
Proof.
  destruct (resource_entry_parsing ∅) as (Hnone & Hempty & Hpair & Hrest).
  repeat apply conj.
  - apply Hnone. reflexivity.
  - apply (Hempty "team"). reflexivity.
  - apply (Hpair " team " " platform "); (reflexivity || discriminate).
  - apply (Hrest "team" "platform" "eu"); (reflexivity || discriminate).
Defined.

Lemma setFromEnv_keeps key a b (attrs : gmap string string) k :
  is_Some (attrs !! k) → is_Some (Tracer.setFromEnv key a b attrs !! k).
Proof.
  intros Hk. unfold Tracer.setFromEnv. destruct (truthy _); [|done].
  destruct (decide (key = k)) as [->|]; [by rewrite lookup_insert_eq|].
  by rewrite lookup_insert_ne.
Qed.

Lemma addResourceEntry_keeps attrs attr k :
  is_Some (attrs !! k) → is_Some (Tracer.addResourceEntry attrs attr !! k).
Proof.
  intros Hk. unfold Tracer.addResourceEntry.
  destruct (TraceCtx.splitOn "=" attr) as [|key [|value ?]]; try done.
  destruct (_ && _); [|done].
  destruct (decide (trim key = k)) as [->|]; [by rewrite lookup_insert_eq|].
  by rewrite lookup_insert_ne.
Qed.

Lemma foldl_addResourceEntry_keeps entries attrs k :
  is_Some (attrs !! k) → is_Some (foldl Tracer.addResourceEntry attrs entries !! k).
Proof.
  revert attrs. induction entries as [|attr entries IH]; intros attrs Hk; [done|].
  cbn. by apply IH, addResourceEntry_keeps.
Qed.

(** X17.  Whatever the configuration and the environment hold, the
    resource carries [service.name], [service.version],
    [deployment.environment], [service.namespace] and [cloud.provider];
    and an attribute given in [config.resourceAttributes] is in the
    resource with exactly the given value, over everything else. *)
Theorem resource_attributes_base_and_override config env :
  (∀ k, k ∈ ["service.name"; "service.version"; "deployment.environment";
             "service.namespace"; "cloud.provider"] →
        is_Some (Tracer.buildResourceAttributes config env !! k))
  ∧ (∀ extra k v, Tracer.resourceAttributes config = Some extra →
                  extra !! k = Some v →
                  Tracer.buildResourceAttributes config env !! k = Some v).
Proof.
  split.
  - intros k Hk. unfold Tracer.buildResourceAttributes.
    match goal with
    | |- context [if truthy ?c then <["cloud.region" := ?v]> ?b else _] =>
        set (base := b)
    end.
    assert (Hbase : is_Some (base !! k)).
    { subst base. rewrite !elem_of_cons, elem_of_nil in Hk.
      destruct Hk as [->|[->|[->|[->|[->|[]]]]]]; by simplify_map_eq. }
    set (a1 := if truthy _ then <["cloud.region" := _]> base else base).
    assert (H1 : is_Some (a1 !! k)).
    { subst a1.
      match goal with |- context [if ?c then _ else base] => destruct c end; [|done].
      destruct (decide ("cloud.region" = k)) as [<-|]; [by rewrite lookup_insert_eq|].
      by rewrite lookup_insert_ne. }
    set (a2 := if truthy (env !! "KUBERNETES_SERVICE_HOST") then _ else a1).
    assert (H2 : is_Some (a2 !! k)).
    { subst a2. destruct (truthy (env !! "KUBERNETES_SERVICE_HOST")); [|done].
      by do 4 apply setFromEnv_keeps. }
    set (a3 := if truthy (env !! "OTEL_RESOURCE_ATTRIBUTES") then _ else a2).
    assert (H3 : is_Some (a3 !! k)).
    { subst a3. destruct (truthy (env !! "OTEL_RESOURCE_ATTRIBUTES")); [|done].
      by apply foldl_addResourceEntry_keeps. }
    destruct (Tracer.resourceAttributes config) as [extra|]; [|done].
    rewrite lookup_union. destruct (extra !! k), H3 as [? ->]; done.
  - intros extra k v Hextra Hk. unfold Tracer.buildResourceAttributes.
    rewrite Hextra. by apply lookup_union_Some_l.
Qed.

Lemma resource_attributes_base_and_override_witness :
  is_Some (Tracer.buildResourceAttributes Cases.noConfig ∅ !! "service.name")
  ∧ Tracer.buildResourceAttributes
      (Tracer.mkTracingConfig (Some "api") None None None None None None None
         (Some {[ "service.name" := "api-canary" ]}) None None None)
      {[ "OTEL_RESOURCE_ATTRIBUTES" := "service.name=from-env" ]}
    !! "service.name" = Some "api-canary".
Proof.
  split.
  - apply (proj1 (resource_attributes_base_and_override Cases.noConfig ∅)).
    rewrite elem_of_cons. by left.
  - apply (proj2 (resource_attributes_base_and_override _ _)
             {[ "service.name" := "api-canary" ]}); reflexivity.
Defined.

(** X18.  In a well-formed [OTEL_RESOURCE_ATTRIBUTES] list the last entry
    decides: when the list ends with [,key=value] and the configuration
    gives no attribute for that key, the resource holds the trimmed value
    under the trimmed key, over the built-in attributes and over earlier
    entries. *)
Theorem last_resource_entry_wins config env earlier key value :
  env !! "OTEL_RESOURCE_ATTRIBUTES" = Some (earlier +:+ "," +:+ key +:+ "=" +:+ value) →
  noChar "," key → noChar "," value →
  noChar "=" key → noChar "=" value →
  key ≠ "" → value ≠ "" →
  (∀ extra, Tracer.resourceAttributes config = Some extra → extra !! trim key = None) →
  Tracer.buildResourceAttributes config env !! trim key = Some (trim value).
Proof.
  intros Henv Hk1 Hv1 Hk2 Hv2 Hk Hv Hconfig.
  unfold Tracer.buildResourceAttributes. rewrite Henv.
  assert (Htruthy : truthy (Some (earlier +:+ "," +:+ key +:+ "=" +:+ value)) = true).
  { apply truthy_Some. change ("," +:+ key +:+ "=" +:+ value)
      with (String ","%char (key +:+ "=" +:+ value)).
    by destruct earlier. }
  rewrite Htruthy. cbn [default from_option]. unfold id.
  change ("," +:+ key +:+ "=" +:+ value) with (String ","%char (key +:+ "=" +:+ value)).
  rewrite splitOn_append.
  assert (Hlast : TraceCtx.splitOn "," (key +:+ "=" +:+ value)
                  = [key +:+ "=" +:+ value]).
  { apply splitOn_no_separator. unfold noChar in *.
    clear -Hk1 Hv1. induction key as [|c key IH].
    - change ("" +:+ "=" +:+ value) with (String "="%char value). cbn. done.
    - change (String c key +:+ "=" +:+ value) with (String c (key +:+ "=" +:+ value)).
      cbn in *. apply andb_true_iff in Hk1 as [-> Hk1]. by apply IH. }
  rewrite Hlast, foldl_app. cbn [foldl].
  rewrite addResourceEntry_pair by done.
  destruct (Tracer.resourceAttributes config) as [extra|] eqn:Hextra.
  - rewrite lookup_union_r by by apply Hconfig. by rewrite lookup_insert_eq.
  - by rewrite lookup_insert_eq.
Qed.

Lemma last_resource_entry_wins_witness :
  Tracer.buildResourceAttributes Cases.noConfig
    {[ "OTEL_RESOURCE_ATTRIBUTES" := "service.name=a,service.name=b" ]}
  !! "service.name" = Some "b".
Proof.
  apply (last_resource_entry_wins Cases.noConfig
           {[ "OTEL_RESOURCE_ATTRIBUTES" := "service.name=a,service.name=b" ]}
           "service.name=a" "service.name" "b");
    try reflexivity; try discriminate.
Defined.

(** ** The tracer: initialisation and shutdown *)

Lemma step_invariant st c :
  (Tracer.isInitialized st = true → is_Some (Tracer.sdk st)) →
  Tracer.signalHandlers st = (2 * Tracer.sdkStarts st)%nat →
  (Tracer.sdk st = None ↔ Tracer.sdkStarts st = 0%nat) →
  (Tracer.isInitialized (Tracer.step st c) = true → is_Some (Tracer.sdk (Tracer.step st c)))
  ∧ Tracer.signalHandlers (Tracer.step st c) = (2 * Tracer.sdkStarts (Tracer.step st c))%nat
  ∧ (Tracer.sdk (Tracer.step st c) = None ↔ Tracer.sdkStarts (Tracer.step st c) = 0%nat).
Proof.
  intros Hsdk Hhandlers Hstarts. destruct c as [config env|rejection]; cbn.
  - unfold Tracer.initTracing.
    destruct (default _ (Tracer.disabled config)); [by cbn|].
    destruct (Tracer.isInitialized st) eqn:Hinit; cbn; [by rewrite Hinit|].
    split; [by eauto|]. split; [lia|]. split; done.
  - unfold Tracer.shutdownTracing.
    destruct (Tracer.sdk st) as [config|] eqn:Hconfig; cbn;
      [|by rewrite ?Hconfig].
    destruct (Tracer.isInitialized st) eqn:Hinit; cbn;
      [|by rewrite ?Hconfig, ?Hinit].
    destruct rejection as [error|]; cbn; rewrite ?Hconfig, ?Hinit; by eauto.
Qed.

(** X19.  After any sequence of [initTracing] and [shutdownTracing] calls,
    from a fresh module: if tracing is marked initialised an SDK exists;
    two signal handlers have been registered for every SDK that was
    started; and an SDK exists exactly when one was started. *)
Theorem tracer_state_invariant calls :
  let st := foldl Tracer.step Tracer.initial calls in
  (Tracer.isInitialized st = true → is_Some (Tracer.sdk st))
  ∧ Tracer.signalHandlers st = (2 * Tracer.sdkStarts st)%nat
  ∧ (Tracer.sdk st = None ↔ Tracer.sdkStarts st = 0%nat).
Proof.
  induction calls as [|c calls IH] using rev_ind; [done|].
  cbn zeta in *. rewrite foldl_app. cbn [foldl].
  destruct IH as (? & ? & ?). by apply step_invariant.
Qed.

Lemma tracer_state_invariant_witness :
  let st :=
    foldl Tracer.step Tracer.initial
      [Tracer.CallInit Cases.noConfig ∅; Tracer.CallShutdown None;
       Tracer.CallInit Cases.noConfig ∅] in
  is_Some (Tracer.sdk st) ∧ Tracer.signalHandlers st = 4%nat.
Proof.
  pose proof (tracer_state_invariant
                [Tracer.CallInit Cases.noConfig ∅; Tracer.CallShutdown None;
                 Tracer.CallInit Cases.noConfig ∅]) as Hinv.
  cbn zeta in *. destruct Hinv as (Hsdk & Hhandlers & _).
  split; [apply Hsdk; reflexivity|].
  exact (eq_trans Hhandlers eq_refl).
Defined.

(** X20.  A second [initTracing] never replaces a running SDK: once a call
    that is not disabled has initialised tracing, a further call, whatever
    its configuration, starts nothing, registers no handler and keeps the
    SDK of the first call. *)
Theorem initTracing_second_call_keeps_sdk config1 env1 config2 env2 st :
  Tracer.isInitialized st = false →
  default (bool_decide (env1 !! "OTEL_SDK_DISABLED" = Some "true"))
          (Tracer.disabled config1) = false →
  let st1 := Tracer.initTracing config1 env1 st in
  let st2 := Tracer.initTracing config2 env2 st1 in
  Tracer.isInitialized st1 = true
  ∧ Tracer.sdkStarts st1 = S (Tracer.sdkStarts st)
  ∧ Tracer.sdk st2 = Tracer.sdk st1
  ∧ Tracer.sdkStarts st2 = Tracer.sdkStarts st1
  ∧ Tracer.signalHandlers st2 = Tracer.signalHandlers st1
  ∧ Tracer.isInitialized st2 = true.
Proof.
  intros Hfresh Henabled st1.
  assert (Hfirst : Tracer.isInitialized st1 = true
                   ∧ Tracer.sdkStarts st1 = S (Tracer.sdkStarts st)).
  { subst st1. unfold Tracer.initTracing. by rewrite Henabled, Hfresh. }
  destruct Hfirst as [Hinit1 Hstarts1]. clearbody st1. intros st2. subst st2.
  split; [done|]. split; [done|].
  unfold Tracer.initTracing.
  destruct (default _ (Tracer.disabled config2)); rewrite ?Hinit1; cbn; done.
Qed.

Lemma initTracing_second_call_keeps_sdk_witness :
  let st1 := Tracer.initTracing Cases.noConfig ∅ Tracer.initial in
  let st2 := Tracer.initTracing (Cases.configWithEndpoint "http://other:4318") ∅ st1 in
  Tracer.sdk st2 = Tracer.sdk st1 ∧ Tracer.sdkStarts st2 = 1%nat.
Proof.
  destruct (initTracing_second_call_keeps_sdk Cases.noConfig ∅
              (Cases.configWithEndpoint "http://other:4318") ∅ Tracer.initial)
    as (_ & Hstarts & Hsdk & Hsame & _).
  - reflexivity.
  - reflexivity.
  - split; [exact Hsdk|]. cbn zeta. rewrite Hsame. exact Hstarts.
Defined.

(** X21.  What makes [initTracing] start an SDK: it starts one exactly
    when tracing is not yet initialised and either the configuration says
    [disabled: false], or it says nothing and [OTEL_SDK_DISABLED] is not
    the exact text [true].  A [disabled] given in the configuration wins
    over the environment in both directions. *)
Theorem initTracing_starts_iff config env st :
  Tracer.sdkStarts (Tracer.initTracing config env st) = S (Tracer.sdkStarts st)
  ↔ Tracer.isInitialized st = false
    ∧ (Tracer.disabled config = Some false
       ∨ Tracer.disabled config = None ∧ env !! "OTEL_SDK_DISABLED" ≠ Some "true").
Proof.
  unfold Tracer.initTracing.
  destruct (Tracer.disabled config) as [[]|]; cbn [default].
  - cbn. split; [lia|]. by intros [_ [[=] | [[=] _]]].
  - destruct (Tracer.isInitialized st); cbn; split; try lia; try by intros [[=] _].
    intros _. split; [done|by left].
  - case_bool_decide as Henv.
    + cbn. split; [lia|]. by intros [_ [[=] | [_ ?]]].
    + destruct (Tracer.isInitialized st); cbn; split; try lia; try by intros [[=] _].
      intros _. split; [done|by right].
Qed.

Lemma initTracing_starts_iff_witness :
  Tracer.sdkStarts
    (Tracer.initTracing Cases.noConfig {[ "OTEL_SDK_DISABLED" := "TRUE" ]} Tracer.initial)
  = 1%nat.
Proof.
  apply (proj2 (initTracing_starts_iff Cases.noConfig
                  {[ "OTEL_SDK_DISABLED" := "TRUE" ]} Tracer.initial)).
  split; [reflexivity|]. right. split; [reflexivity|].
  intros Henv. vm_compute in Henv. discriminate Henv.
Defined.

(** X22.  A failed [shutdownTracing] throws the error of [sdk.shutdown()]
    and leaves tracing marked as initialised, so that a later [initTracing]
    is still refused; a successful one clears the mark, and the next
    [initTracing] that is not disabled starts another SDK and registers two
    more signal handlers on top of the earlier ones. *)
Theorem shutdown_then_init config env st sdkConfig error :
  Tracer.sdk st = Some sdkConfig →
  Tracer.isInitialized st = true →
  default (bool_decide (env !! "OTEL_SDK_DISABLED" = Some "true"))
          (Tracer.disabled config) = false →
  (let failed := Tracer.shutdownTracing (Some error) st in
   fst failed = Thrown error
   ∧ Tracer.isInitialized (snd failed) = true
   ∧ Tracer.sdkStarts (Tracer.initTracing config env (snd failed)) = Tracer.sdkStarts st)
  ∧ (let stopped := Tracer.shutdownTracing None st in
     fst stopped = Returned tt
     ∧ Tracer.isInitialized (snd stopped) = false
     ∧ Tracer.sdkStarts (Tracer.initTracing config env (snd stopped))
       = S (Tracer.sdkStarts st)
     ∧ Tracer.signalHandlers (Tracer.initTracing config env (snd stopped))
       = (2 + Tracer.signalHandlers st)%nat).
Proof.
  intros Hsdk Hinit Henabled.
  unfold Tracer.shutdownTracing. rewrite Hsdk, Hinit. cbn [fst snd].
  unfold Tracer.initTracing. rewrite Henabled. cbn.
  rewrite Hinit. done.
Qed.

Lemma shutdown_then_init_witness :
  let st := Tracer.initTracing Cases.noConfig ∅ Tracer.initial in
  let stopped := Tracer.shutdownTracing None st in
  fst stopped = Returned tt
  ∧ Tracer.signalHandlers (Tracer.initTracing Cases.noConfig ∅ (snd stopped)) = 4%nat.
Proof.
  destruct (shutdown_then_init Cases.noConfig ∅
              (Tracer.initTracing Cases.noConfig ∅ Tracer.initial)
              (Tracer.mkSdkConfig (Tracer.buildResourceAttributes Cases.noConfig ∅)
                 (Tracer.OTLPHttpTraceExporter "http://localhost:4318/v1/traces") false
                 (Tracer.ignoreIncomingRequestHook true []))
              JsUndefined)
    as (_ & Hok & _ & _ & Hhandlers).
  - reflexivity.
  - reflexivity.
  - reflexivity.
  - split; [exact Hok|exact Hhandlers].
Defined.

(** ** The health-check filter *)

Lemma startsWith_append p s t : startsWith p s = true → startsWith p (s +:+ t) = true.
Proof.
  revert s. induction p as [|a p IH]; intros s; [by destruct s|].
  destruct s as [|b s]; [done|].
  change (String b s +:+ t) with (String b (s +:+ t)). cbn.
  intros [-> Hs]%andb_true_iff. by rewrite IH.
Qed.

Lemma includes_append_r p s t : includes p s = true → includes p (s +:+ t) = true.
Proof.
  induction s as [|c s IH].
  - cbn. rewrite orb_false_r. intros Hp. destruct p; [|done]. by destruct t.
  - change (String c s +:+ t) with (String c (s +:+ t)). cbn [includes].
    intros [Hs | Hs]%orb_true_iff.
    + pose proof (startsWith_append _ (String c s) t Hs) as Hst.
      change (String c s +:+ t) with (String c (s +:+ t)) in Hst. by rewrite Hst.
    + rewrite (IH Hs). apply orb_true_r.
Qed.

Lemma includes_append_l p s t : includes p s = true → includes p (t +:+ s) = true.
Proof.
  intros Hs. induction t as [|c t IH]; [done|].
  change (String c t +:+ s) with (String c (t +:+ s)). cbn [includes].
  rewrite IH. apply orb_true_r.
Qed.

Lemma includes_within p s before after :
  includes p s = true → includes p (before +:+ s +:+ after) = true.
Proof. intros Hs. by apply includes_append_l, includes_append_r. Qed.

Lemma includes_empty s : includes "" s = true.
Proof. by destruct s. Qed.

(** X23.  The incoming-request filter matches by containment: a URL that
    is ignored stays ignored with anything put before or after it, so
    [/healthz], [/api/health?probe=1] and [/api/livestock] are ignored
    along with [/health] and [/live]; an empty string among the configured paths
    ignores every request; and with health checks off and no path
    configured nothing is ignored. *)
Theorem ignore_hook_matches_by_containment ignoreHealthChecks paths url :
  (∀ before after,
     Tracer.ignoreIncomingRequestHook ignoreHealthChecks paths url = true →
     Tracer.ignoreIncomingRequestHook ignoreHealthChecks paths
       (before +:+ url +:+ after) = true)
  ∧ ("" ∈ paths → Tracer.ignoreIncomingRequestHook ignoreHealthChecks paths url = true)
  ∧ Tracer.ignoreIncomingRequestHook false [] url = false.
Proof.
  split; [|split; [|done]].
  - intros before after. unfold Tracer.ignoreIncomingRequestHook.
    destruct (ignoreHealthChecks
              && (includes "/health" url || includes "/ready" url
                  || includes "/live" url)) eqn:Hhealth.
    + intros _. apply andb_true_iff in Hhealth as [-> Hhealth]. cbn [andb].
      apply orb_true_iff in Hhealth as [Hhealth | Hlive].
      * apply orb_true_iff in Hhealth as [Hhealth | Hready].
        -- by rewrite (includes_within _ _ before after Hhealth).
        -- rewrite (includes_within _ _ before after Hready).
           by rewrite orb_true_r.
      * rewrite (includes_within _ _ before after Hlive). by rewrite !orb_true_r.
    + intros Hpaths. apply existsb_exists in Hpaths as (path & Hin & Hpath).
      match goal with |- context [if ?c then true else _] => destruct c end; [done|].
      apply existsb_exists. exists path. split; [done|]. by apply includes_within.
  - intros Hempty. unfold Tracer.ignoreIncomingRequestHook.
    destruct (_ && _); [done|].
    apply existsb_exists. exists "". split; [by apply list_elem_of_In|].
    apply includes_empty.
Qed.

Lemma ignore_hook_matches_by_containment_witness :
  Tracer.ignoreIncomingRequestHook true [] "/api/livestock" = true
  ∧ Tracer.ignoreIncomingRequestHook false ["/metrics"; ""] "/api/users" = true.
Proof.
  destruct (ignore_hook_matches_by_containment true [] "/live") as (Hextend & _).
  destruct (ignore_hook_matches_by_containment false ["/metrics"; ""] "/api/users")
    as (_ & Hempty & _).
  split.
  - apply (Hextend "/api" "stock"). reflexivity.
  - apply Hempty. rewrite !elem_of_cons. right. by left.
Defined.

(** ** The logger mixin *)

(** X24.  The logger mixin adds a field exactly for each of [traceId],
    [spanId], [correlationId], [eventId], [eventType], [userId] and
    [requestId] that is set and non-empty in the current context, with that
    value: it never adds an empty or undefined field, nor a field under
    another name. *)
Theorem mixin_fields `{!TraceCtx.Api} w key (j : Json) :
  (key, j) ∈ Logger.mixin w
  ↔ ∃ id, j = JString id ∧ id ≠ ""
          ∧ Logger.fieldOf key (TraceCtx.getCurrentTraceContext w) = Some id.
Proof.
  unfold Logger.mixin. rewrite !elem_of_app, !elem_of_fieldIf.
  unfold Logger.fieldOf. split.
  - intros [(-> & id & -> & ? & ?) | [(-> & id & -> & ? & ?)
      | [(-> & id & -> & ? & ?) | [(-> & id & -> & ? & ?)
      | [(-> & id & -> & ? & ?) | [(-> & id & -> & ? & ?)
      | (-> & id & -> & ? & ?)]]]]]]; exists id;
      repeat first [ rewrite bool_decide_eq_true_2 by done
                   | rewrite bool_decide_eq_false_2 by done ];
      done.
  - intros (id & -> & Hne & Hfield).
    do 6 (match type of Hfield with
          | (if bool_decide (?k = ?name) then _ else _) = _ =>
              destruct (decide (k = name)) as [->|?];
              [rewrite bool_decide_eq_true_2 in Hfield by done; left; by eauto
              |rewrite bool_decide_eq_false_2 in Hfield by done; right]
          end).
    destruct (decide (key = "requestId")) as [->|?].
    + rewrite bool_decide_eq_true_2 in Hfield by done. by eauto.
    + by rewrite bool_decide_eq_false_2 in Hfield by done.
Qed.

Lemma mixin_fields_witness :
  ("correlationId", JString "c-1")
  ∈ @Logger.mixin Sample.api
      (mkWorld [] None
         (TraceContext.mk None None (Some "c-1") None None None (Some "")) 0).
Proof.
  apply (proj2 (@mixin_fields Sample.api
                  (mkWorld [] None
                     (TraceContext.mk None None (Some "c-1") None None None (Some "")) 0)
                  "correlationId" (JString "c-1"))).
  exists "c-1". repeat apply conj; [reflexivity|discriminate|reflexivity].
Defined.

(** ** The span attributes of the HTTP middleware *)

Lemma option_union_Some {A} (x : A) (o : option A) : Some x ∪ o = Some x.
Proof. by destruct o. Qed.

Lemma option_union_None {A} (o : option A) : None ∪ o = o.
Proof. by destruct o. Qed.

Local Ltac map_lookup :=
  repeat first [ rewrite lookup_insert_eq
               | rewrite lookup_insert_ne by done
               | rewrite lookup_singleton_eq
               | rewrite lookup_singleton_ne by done
               | rewrite lookup_empty
               | rewrite option_union_Some
               | rewrite option_union_None ].

(** The attributes the middleware puts on the active span when no
    [additionalAttributes] are configured. *)
Lemma createTracingMiddleware_span `{!TraceCtx.Api} options req res w span s :
  Express.additionalAttributes options = None →
  activeSpan w = Some span →
  spans w !! span = Some s →
  let extracted := TraceCtx.extractCorrelationId (Express.headers req) in
  let generate :=
    negb (truthy extracted) && default true (Express.generateCorrelationId options) in
  let correlationId :=
    if generate then Some (TraceCtx.idSource (idsDrawn w)) else extracted in
  let requestId :=
    TraceCtx.idSource (if generate then S (idsDrawn w) else idsDrawn w) in
  ∃ res' w' s',
    Express.createTracingMiddleware options req res w = (Returned res', w')
    ∧ spans w' !! span = Some s'
    ∧ attributes s' !! "http.request.query"
      = Some (AString (match TraceCtx.splitOn "?" (Express.url req) with
                       | _ :: query :: _ => query
                       | _ => ""
                       end))
    ∧ attributes s' !! "http.request.route"
      = Some (AString (orElse (Express.routePath req) (Express.path req)))
    ∧ attributes s' !! "request.id"
      = (if bool_decide (requestId ≠ "") then Some (AString requestId)
         else attributes s !! "request.id")
    ∧ attributes s' !! "correlation.id"
      = (if truthy correlationId then AString <$> correlationId
         else attributes s !! "correlation.id").
Proof.
  intros Hextra Hactive Hs extracted generate correlationId requestId.
  unfold Express.createTracingMiddleware.
  fold extracted. fold generate. rewrite Hextra.
  unfold mbind, M_bind, mret, M_ret, TraceCtx.generateCorrelationId,
    TraceCtx.setTraceContext.
  subst correlationId requestId.
  destruct generate; cbn [idsDrawn withIdsDrawn withTraceStore traceStore];
    rewrite addSpanAttributes_run';
    eexists _, _, _; (split; [reflexivity|]);
    (rewrite onActiveSpan_lookup by done); cbn [spans withTraceStore withIdsDrawn];
    rewrite Hs; (split; [reflexivity|]);
    cbn [attributes SpanObject.setAttributes];
    rewrite !lookup_union;
    repeat apply conj;
    rewrite ?lookup_setIf_ne by done.
  1, 2, 5, 6: by map_lookup.
  - cbn [truthy]. case_bool_decide; cbn [setIf].
    + by map_lookup.
    + rewrite lookup_setIf_ne by done. by map_lookup.
  - cbn [truthy]. case_bool_decide; cbn [setIf default].
    + by map_lookup.
    + by map_lookup.
  - cbn [truthy]. case_bool_decide; cbn [setIf].
    + by map_lookup.
    + rewrite lookup_setIf_ne by done. by map_lookup.
  - destruct (truthy extracted) eqn:Htruthy; cbn [setIf].
    + map_lookup. by destruct extracted.
    + by map_lookup.
Qed.

Lemma append_empty_r (s : string) : s +:+ "" = s.
Proof.
  induction s as [|c s IH]; [done|].
  change (String c s +:+ "") with (String c (s +:+ "")). by rewrite IH.
Qed.

(** X25.  With no [additionalAttributes], the middleware writes
    [http.request.query] on the active span as the text between the first
    and the second [?] of [req.url]: the empty string for a URL without
    [?], and for a URL with a second [?] nothing from that [?] on. *)
Theorem middleware_query_attribute `{!TraceCtx.Api} options req res w span s :
  Express.additionalAttributes options = None →
  activeSpan w = Some span →
  spans w !! span = Some s →
  ∃ res' w' s',
    Express.createTracingMiddleware options req res w = (Returned res', w')
    ∧ spans w' !! span = Some s'
    ∧ (noChar "?" (Express.url req) →
       attributes s' !! "http.request.query" = Some (AString ""))
    ∧ (∀ path query tail,
         noChar "?" path → noChar "?" query →
         tail = "" ∨ (∃ rest, tail = String "?" rest) →
         Express.url req = path +:+ String "?" (query +:+ tail) →
         attributes s' !! "http.request.query" = Some (AString query)).
Proof.
  intros Hextra Hactive Hs.
  destruct (createTracingMiddleware_span options req res w span s Hextra Hactive Hs)
    as (res' & w' & s' & Hrun & Hs' & Hquery & _).
  exists res', w', s'. repeat split; [done..| |].
  - intros Hno. by rewrite Hquery, (splitOn_no_separator _ _ Hno).
  - intros path query tail Hpath Hq Htail Hurl.
    rewrite Hquery, Hurl, (splitOn_field _ _ _ Hpath).
    destruct Htail as [->|[rest ->]].
    + by rewrite append_empty_r, (splitOn_no_separator _ _ Hq).
    + by rewrite (splitOn_field _ _ _ Hq).
Qed.

Lemma middleware_query_attribute_witness :
  ∃ res' w' s',
    @Express.createTracingMiddleware Sample.api Sample.noOptions
      (Express.mkRequest ∅ "GET" "/search" None "/search?q=tea?cup" None)
      Sample.response Sample.worldServing = (Returned res', w')
    ∧ spans w' !! 0%nat = Some s'
    ∧ attributes s' !! "http.request.query" = Some (AString "q=tea").
Proof.
  destruct (@middleware_query_attribute Sample.api Sample.noOptions
              (Express.mkRequest ∅ "GET" "/search" None "/search?q=tea?cup" None)
              Sample.response Sample.worldServing 0%nat Sample.serverSpan)
    as (res' & w' & s' & Hrun & Hs' & _ & Hquery); [reflexivity..|].
  exists res', w', s'. repeat split; [done..|].
  apply (Hquery "/search" "q=tea" "?cup"); [reflexivity..| |reflexivity].
  right. by exists "cup".
Defined.

(** X26.  With an active span, no [additionalAttributes], identifiers that
    are never empty and generation of correlation ids not switched off,
    the middleware writes each identifier consistently: the request id
    is in the trace context, on the span as [request.id] and in the
    [x-request-id] header; the correlation id is in the trace context and
    on the span as [correlation.id]; neither is empty. *)
Theorem middleware_span_ids_match_context `{!TraceCtx.Api} options req res w span s :
  Express.additionalAttributes options = None →
  activeSpan w = Some span →
  spans w !! span = Some s →
  (∀ n, TraceCtx.idSource n ≠ "") →
  default true (Express.generateCorrelationId options) = true →
  ∃ res' w' s' requestId correlationId,
    Express.createTracingMiddleware options req res w = (Returned res', w')
    ∧ spans w' !! span = Some s'
    ∧ requestId ≠ "" ∧ correlationId ≠ ""
    ∧ TraceContext.requestId (traceStore w') = Some requestId
    ∧ attributes s' !! "request.id" = Some (AString requestId)
    ∧ ("x-request-id", requestId) ∈ Express.headerWrites res'
    ∧ TraceContext.correlationId (traceStore w') = Some correlationId
    ∧ attributes s' !! "correlation.id" = Some (AString correlationId).
Proof.
  intros Hextra Hactive Hs Hids Hgenerate.
  destruct (createTracingMiddleware_span options req res w span s Hextra Hactive Hs)
    as (res' & w' & s' & Hrun & Hs' & _ & _ & Hrid & Hcid).
  destruct (createTracingMiddleware_run options req res w)
    as (w'' & traceWrite & Hrun' & _ & Hstore & Hreq & _).
  rewrite Hrun in Hrun'. injection Hrun' as Hres <-.
  rewrite Hgenerate, andb_true_r in *.
  rewrite bool_decide_eq_true_2 in Hrid by apply Hids.
  destruct (truthy (TraceCtx.extractCorrelationId (Express.headers req)))
    eqn:Htruthy; cbn [negb] in *.
  - destruct (TraceCtx.extractCorrelationId (Express.headers req))
      as [extracted|] eqn:Hextracted; [|done].
    cbn in Htruthy. apply bool_decide_eq_true in Htruthy.
    rewrite truthy_Some in Hcid by done.
    exists res', w', s', (TraceCtx.idSource (idsDrawn w)), extracted.
    subst res'. cbn [Express.headerWrites].
    repeat apply conj; [done|done|apply Hids|done|done|done| |done|done].
    rewrite !elem_of_app, elem_of_cons. auto.
  - rewrite truthy_Some in Hcid by apply Hids.
    exists res', w', s', (TraceCtx.idSource (S (idsDrawn w))),
      (TraceCtx.idSource (idsDrawn w)).
    subst res'. cbn [Express.headerWrites].
    repeat apply conj; [done|done|apply Hids|apply Hids|done|done| |done|done].
    rewrite !elem_of_app, elem_of_cons. auto.
Qed.

Lemma middleware_span_ids_match_context_witness :
  ∃ res' w' s',
    @Express.createTracingMiddleware Sample.api Sample.noOptions
      (Sample.request ∅) Sample.response Sample.worldServing = (Returned res', w')
    ∧ spans w' !! 0%nat = Some s'
    ∧ TraceContext.requestId (traceStore w') = Some "id-1"
    ∧ attributes s' !! "request.id" = Some (AString "id-1")
    ∧ ("x-request-id", "id-1") ∈ Express.headerWrites res'
    ∧ TraceContext.correlationId (traceStore w') = Some "id-0"
    ∧ attributes s' !! "correlation.id" = Some (AString "id-0").
Proof.
  destruct (@middleware_span_ids_match_context Sample.api Sample.noOptions
              (Sample.request ∅) Sample.response Sample.worldServing
              0%nat Sample.serverSpan)
    as (res' & w' & s' & requestId & correlationId & Hrun & Hs' & _ & _ & Hreq
        & Hrid & Hheader & Hstore & Hcid); [reflexivity..| |reflexivity|].
  - intros n. discriminate.
  - assert (requestId = "id-1") as ->.
    { injection Hrun as _ <-. vm_compute in Hreq. by injection Hreq. }
    assert (correlationId = "id-0") as ->.
    { injection Hrun as _ <-. vm_compute in Hstore. by injection Hstore. }
    by exists res', w', s'.
Defined.
